(** * docker-cloud: instance lifecycle orchestration on a compute provider

    A shallow embedding of [dockercloud/gce.go] (the provider-backed
    implementation of the [Cloud] interface) and of [docker-cloud.go] (the
    command-line orchestrator).

    The provider, the operating system and the clock are outside the
    program.  They are modelled by an abstract world [W] together with a
    record of transition functions ([Provider]); every effect the program
    performs is recorded, in order, in a list of [Event]s.  Go pointers are
    [option]s, a nil dereference or an out-of-range index stops the
    computation ([Stop]), and the unbounded polling loop takes a fuel
    argument that bounds its iterations. *)

From Stdlib Require Import String Ascii List ZArith Bool Lia DecimalString.
From ExtLib Require Import Structures.Monad.
Import ListNotations.
Import MonadNotation.

Local Open Scope string_scope.
Local Open Scope list_scope.
Local Open Scope monad_scope.

(** ** The data of the compute API that the program reads or writes *)

Module compute.

(** [compute.Operation]: the fields the program reads. *)
Module Operation.
Record t : Type := Build
  { Name : string; Status : string; TargetLink : string }.
End Operation.

(** [compute.Disk]: [Name] is written on insert, [SelfLink] read on get. *)
Module Disk.
Record t : Type := Build { Name : string; SelfLink : string }.
End Disk.

Module AttachedDisk.
Record t : Type := Build
  { Boot : bool; Type_ : string; Mode : string; Source : string }.
End AttachedDisk.

Module AccessConfig.
Record t : Type := Build { Type_ : string; NatIP : string }.
End AccessConfig.

(** [AccessConfigs] is a [[]*AccessConfig]: a slice of pointers. *)
Module NetworkInterface.
Record t : Type := Build
  { AccessConfigs : list (option AccessConfig.t); Network : string }.
End NetworkInterface.

Module MetadataItems.
Record t : Type := Build { Key : string; Value : string }.
End MetadataItems.

Module Metadata.
Record t : Type := Build { Items : list (option MetadataItems.t) }.
End Metadata.

Module Instance.
Record t : Type := Build
  { Name : string;
    Description : string;
    MachineType : string;
    Disks : list (option AttachedDisk.t);
    NetworkInterfaces : list (option NetworkInterface.t);
    Metadata : option Metadata.t }.
End Instance.

End compute.

Import compute.

(** [os.Process], as far as the program is concerned an opaque handle. *)
Record Process : Type := { Pid : Z }.

(** A Go [error] value.  Errors made by the API client or by the operating
    system are opaque messages; the one error the program builds itself is
    [errors.New(fmt.Sprintf(format, op))]. *)
Inductive error : Type :=
| external (msg : string)
| errors_New (format : string) (op : Operation.t).

(** An operand of a formatting verb in a log line. *)
Inductive Value : Type :=
| VString (s : string)
| VOperation (op : option Operation.t)
| VError (e : option error).

(** [time.Second], a [time.Duration] in nanoseconds. *)
Definition Second : Z := 1000000000.

(** The ways a Go computation ends without returning to its caller. *)
Inductive Abort : Type :=
| nil_dereference
| index_out_of_range
| Fatal
| Exit (code : Z)
| Blocked
| OutOfFuel.

Inductive Outcome (A : Type) : Type :=
| Ret (a : A)
| Stop (why : Abort).
Arguments Ret {A} a.
Arguments Stop {A} why.

(** ** The credentials of the API client, [gcloudTransport]

    The file system, the JSON decoder and the token endpoint are outside
    the program: a [Host] gives the error of [os.Open] on a path, the cache
    as the decoder leaves it with the decoder's error, and the error of
    [Refresh] on a transport.  The steps are recorded in order. *)

Module Credentials.

Record Credential : Type := mkCredential
  { Client_Id : string;
    Client_Secret : string;
    Access_Token : string;
    Refresh_Token : string;
    Token_Expiry : Z }.

Record Key : Type := mkKey { Scope : string }.

(** One element of [Data]. *)
Record Entry : Type := mkEntry { entry_Credential : Credential; entry_Key : Key }.

Record gcloudCredentialsCache : Type := mkCache { Data : list Entry }.

(** [oauth.Config], [oauth.Token] and [oauth.Transport], with the fields the
    program sets; the underlying [Transport] is always
    [http.DefaultTransport]. *)
Record Config : Type := mkConfig
  { ClientId : string;
    ClientSecret : string;
    RedirectURL : string;
    config_Scope : string;
    AuthURL : string;
    TokenURL : string }.

Record Token : Type := mkToken
  { AccessToken : string; RefreshToken : string; Expiry : Z }.

Record Transport : Type := mkTransport { transport_Config : Config; transport_Token : Token }.

Inductive Step : Type :=
| Open (path : string)
| Decode
| LogPrint (cache : gcloudCredentialsCache)
| Refresh (t : Transport)
| Close.

Record Host : Type := mkHost
  { os_Open : string -> option error;
    json_Decode : string -> gcloudCredentialsCache * option error;
    oauth_Refresh : Transport -> option error }.

(** The transport built from one entry of the cache. *)
Definition transport_of (gcloud : Entry) : Transport :=
  {| transport_Config :=
       {| ClientId := Client_Id (entry_Credential gcloud);
          ClientSecret := Client_Secret (entry_Credential gcloud);
          RedirectURL := "oob";
          config_Scope := Scope (entry_Key gcloud);
          AuthURL := "https://accounts.google.com/o/oauth2/auth";
          TokenURL := "https://accounts.google.com/o/oauth2/token" |};
     transport_Token :=
       {| AccessToken := Access_Token (entry_Credential gcloud);
          RefreshToken := Refresh_Token (entry_Credential gcloud);
          Expiry := Token_Expiry (entry_Credential gcloud) |} |}.

(** The statements after [defer f.Close()]. *)
Definition opened (H : Host) (path : string)
  : Outcome (option Transport * option error) * list Step :=
  let (cache, err) := json_Decode H path in
  match err with
  | Some _ => (Ret (None, err), [Decode])
  | None =>
      match nth_error (Data cache) 0 with
      | None => (Stop index_out_of_range, [Decode; LogPrint cache])
      | Some gcloud =>
          let t := transport_of gcloud in
          (Ret (Some t, oauth_Refresh H t), [Decode; LogPrint cache; Refresh t])
      end
  end.

(** [gcloudTransport]: the deferred [Close] runs when the function is left,
    by a return or by a panic. *)
Definition gcloudTransport (H : Host) (path : string)
  : Outcome (option Transport * option error) * list Step :=
  match os_Open H path with
  | Some e => (Ret (None, Some e), [Open path])
  | None =>
      let (result, steps) := opened H path in
      (result, Open path :: steps ++ [Close])
  end.

Definition is_refresh (s : Step) : bool :=
  match s with Refresh _ => true | _ => false end.

Definition is_close (s : Step) : bool :=
  match s with Close => true | _ => false end.

(** A host with a readable cache of two entries and a token endpoint that
    refuses the refresh. *)
Definition first_entry : Entry :=
  {| entry_Credential :=
       {| Client_Id := "id-1"; Client_Secret := "secret-1";
          Access_Token := "access-1"; Refresh_Token := "refresh-1";
          Token_Expiry := 1385510400 |};
     entry_Key := {| Scope := "https://www.googleapis.com/auth/compute" |} |}.

Definition second_entry : Entry :=
  {| entry_Credential :=
       {| Client_Id := "id-2"; Client_Secret := "secret-2";
          Access_Token := "access-2"; Refresh_Token := "refresh-2";
          Token_Expiry := 0 |};
     entry_Key := {| Scope := "" |} |}.

Definition host (entries : list Entry) : Host :=
  {| os_Open := fun _ => None;
     json_Decode := fun _ => ({| Data := entries |}, None);
     oauth_Refresh := fun _ => Some (external "invalid_grant") |}.

End Credentials.

(** ** Effects *)

Inductive Event : Type :=
| InstancesGet (project zone name : string)
| InstancesInsert (project zone : string) (instance : Instance.t)
| InstancesDelete (project zone name : string)
| DisksGet (project zone name : string)
| DisksInsert (project zone : string) (disk : Disk.t) (sourceImage : string)
| ZoneOperationsGet (project zone name : string)
| Sleep (d : Z)
| Print (s : string)
| Log (format : string) (args : list Value)
| Run (name : string) (args : list string)
| Credential (step : Credentials.Step)
| NewService
| Usage
| PrintDefaults.

Record Result (W A : Type) : Type := mkResult
  { outcome : Outcome A; final : W; events : list Event }.
Arguments mkResult {W A}.
Arguments outcome {W A}.
Arguments final {W A}.
Arguments events {W A}.

(** A computation: from the world before, the outcome, the world after and
    the events performed on the way. *)
Definition M (W A : Type) : Type := W -> Result W A.

Definition M_ret {W A} (a : A) : M W A :=
  fun w => mkResult (Ret a) w [].

Definition M_bind {W A B} (m : M W A) (k : A -> M W B) : M W B :=
  fun w =>
    match m w with
    | mkResult (Ret a) w1 ev1 =>
        match k a w1 with
        | mkResult o w2 ev2 => mkResult o w2 (ev1 ++ ev2)
        end
    | mkResult (Stop why) w1 ev1 => mkResult (Stop why) w1 ev1
    end.

#[global] Instance Monad_M {W} : Monad (M W) :=
  {| ret := @M_ret W; bind := @M_bind W |}.

Definition emit {W} (e : Event) : M W unit :=
  fun w => mkResult (Ret tt) w [e].

Definition stop {W A} (why : Abort) : M W A :=
  fun w => mkResult (Stop why) w [].

(** A request to the outside: the event is recorded and the world answers. *)
Definition request {W R} (e : Event) (answer : W -> R * W) : M W R :=
  fun w => let (r, w') := answer w in mkResult (Ret r) w' [e].

(** [p.f] on a pointer [p]. *)
Definition deref {W A} (p : option A) : M W A :=
  match p with
  | Some a => ret a
  | None => stop nil_dereference
  end.

(** [s[i]] on a slice. *)
Definition index {W A} (s : list A) (i : nat) : M W A :=
  match nth_error s i with
  | Some a => ret a
  | None => stop index_out_of_range
  end.

(** [log.Printf] and [log.Print]; [log.Fatalf] logs and exits the process. *)
Definition log_Printf {W} (format : string) (args : list Value) : M W unit :=
  emit (Log format args).

Definition log_Fatalf {W A} (format : string) (args : list Value) : M W A :=
  emit (Log format args) ;; stop Fatal.

Definition fmt_Print {W} (s : string) : M W unit := emit (Print s).

Definition time_Sleep {W} (d : Z) : M W unit := emit (Sleep d).

(** The answer of a [Do()] call of the API client: a pointer and an error. *)
Definition Answer (T : Type) : Type := (option T * option error)%type.

(** The outside world: the compute provider, and the operating system as far
    as running a command goes. *)
Record Provider (W : Type) : Type := mkProvider
  { Instances_Get : string -> string -> string -> W -> Answer Instance.t * W;
    Instances_Insert : string -> string -> Instance.t -> W -> Answer Operation.t * W;
    Instances_Delete : string -> string -> string -> W -> Answer Operation.t * W;
    Disks_Get : string -> string -> string -> W -> Answer Disk.t * W;
    Disks_Insert : string -> string -> Disk.t -> string -> W -> Answer Operation.t * W;
    ZoneOperations_Get : string -> string -> string -> W -> Answer Operation.t * W;
    (** [exec.Command(name, args...).Run()]: the [cmd.Process] left behind
        and the error of [Run]. *)
    exec_Run : string -> list string -> W -> (option Process * option error) * W;
    (** The host on which [gcloudTransport] reads the credentials cache and
        refreshes the token, and the world once it has done so. *)
    credentials : W -> Credentials.Host * W;
    (** [compute.New]: its error, if any. *)
    compute_New : W -> option error * W }.
Arguments Instances_Get {W}.
Arguments Instances_Insert {W}.
Arguments Instances_Delete {W}.
Arguments Disks_Get {W}.
Arguments Disks_Insert {W}.
Arguments ZoneOperations_Get {W}.
Arguments exec_Run {W}.
Arguments credentials {W}.
Arguments compute_New {W}.

(** The command-line flags of both packages and the environment variables
    the program reads. *)
Record Flags : Type := mkFlags
  { projectId : string;
    instanceType : string;
    image : string;
    diskName : string;
    diskSizeGb : Z;
    dockerPort : Z;
    tunnelPort : Z;
    instanceName : string;
    zone : string;
    env_USER : string;
    env_HOME : string;
    gcloudCredentialsPath : string }.

Definition startup : string :=
  "#!/bin/bash" ++ String "010" "" ++
  "sysctl -w net.ipv4.ip_forward=1" ++ String "010" "" ++
  "wget -qO- https://get.docker.io/ | sh" ++ String "010" "" ++
  "echo 'DOCKER_OPTS=" ++ String "034" "" ++ "-H :8000 -mtu 1460" ++ String "034" "" ++
  "' >> /etc/default/docker" ++ String "010" "" ++
  "service docker restart && echo " ++ String "034" "" ++
  "docker restarted on port :8000" ++ String "034" "" ++ String "010" "".

(** [strings.Split(s, sep)] for a separator of one character. *)
Fixpoint strings_Split (s : string) (sep : ascii) : list string :=
  match s with
  | EmptyString => [EmptyString]
  | String c rest =>
      if Ascii.eqb c sep then EmptyString :: strings_Split rest sep
      else match strings_Split rest sep with
           | [] => [String c EmptyString]
           | word :: words => String c word :: words
           end
  end.

(** The verb [%d] on an [int]. *)
Definition fmt_d (z : Z) : string := NilZero.string_of_int (Z.to_int z).

Section GCECloud.

Context {W : Type}.
Variable P : Provider W.
Variable F : Flags.

(** Wait for a compute operation to finish.  [waitForOp_loop] is the [for]
    statement, entered with the current [op] and [err]; [fuel] bounds the
    number of iterations. *)
Fixpoint waitForOp_loop (fuel : nat) (zone : string)
         (op : option Operation.t) (err : option error) : M W (option error) :=
  o <- deref op ;;
  if negb (Operation.Status o =? "DONE") then
    match fuel with
    | O => stop OutOfFuel
    | S fuel' =>
        fmt_Print "." ;;
        time_Sleep (5 * Second) ;;
        '(op', err') <- request (ZoneOperationsGet (projectId F) zone (Operation.Name o))
                                (ZoneOperations_Get P (projectId F) zone (Operation.Name o)) ;;
        (match err' with
         | Some _ => log_Printf "Got compute.Operation, err: %#v, %v" [VOperation op'; VError err']
         | None => ret tt
         end) ;;
        o' <- deref op' ;;
        if negb (Operation.Status o' =? "PENDING")
           && negb (Operation.Status o' =? "RUNNING")
           && negb (Operation.Status o' =? "DONE")
        then
          log_Printf ("Error waiting for operation: %s" ++ String "010" "") [VOperation op'] ;;
          ret (Some (errors_New "Bad operation: %s" o'))
        else waitForOp_loop fuel' zone op' err'
    end
  else
    fmt_Print (String "010" "") ;;
    ret err.

Definition waitForOp (fuel : nat) (op : option Operation.t) (zone : string)
  : M W (option error) :=
  o <- deref op ;;
  '(op, err) <- request (ZoneOperationsGet (projectId F) zone (Operation.Name o))
                        (ZoneOperations_Get P (projectId F) zone (Operation.Name o)) ;;
  waitForOp_loop fuel zone op err.

(** Implementation of the Cloud interface: the public address of an
    instance. *)
Definition GetPublicIPAddress (name zone : string) : M W (string * option error) :=
  '(instance, err) <- request (InstancesGet (projectId F) zone name)
                              (Instances_Get P (projectId F) zone name) ;;
  match err with
  | Some _ => ret ("", err)
  | None =>
      (* Found the instance, we're good. *)
      i <- deref instance ;;
      ni <- index (Instance.NetworkInterfaces i) 0 ;;
      ni <- deref ni ;;
      ac <- index (NetworkInterface.AccessConfigs ni) 0 ;;
      ac <- deref ac ;;
      ret (AccessConfig.NatIP ac, None)
  end.

(** The disk descriptor sent on insert: [&compute.Disk{Name: *diskName}]. *)
Definition newDisk : Disk.t := {| Disk.Name := diskName F; Disk.SelfLink := "" |}.

(** Get or create a new root disk.  The lookup and the insert use the
    flag [diskName]; the parameter [name] only appears in log lines. *)
Definition getOrCreateRootDisk (fuel : nat) (name zone : string)
  : M W (string * option error) :=
  log_Printf "try getting root disk: %q" [VString name] ;;
  '(disk, err) <- request (DisksGet (projectId F) zone (diskName F))
                          (Disks_Get P (projectId F) zone (diskName F)) ;;
  match err with
  | None =>
      d <- deref disk ;;
      log_Printf "found %q" [VString (Disk.SelfLink d)] ;;
      ret (Disk.SelfLink d, None)
  | Some _ =>
      log_Printf "not found, creating root disk: %q" [VString name] ;;
      '(op, err) <- request (DisksInsert (projectId F) zone newDisk (image F))
                            (Disks_Insert P (projectId F) zone newDisk (image F)) ;;
      match err with
      | Some _ =>
          log_Printf "disk insert api call failed: %v" [VError err] ;;
          ret ("", err)
      | None =>
          err <- waitForOp fuel op zone ;;
          match err with
          | Some _ =>
              log_Printf "disk insert operation failed: %v" [VError err] ;;
              ret ("", err)
          | None =>
              o <- deref op ;;
              log_Printf "root disk created: %q" [VString (Operation.TargetLink o)] ;;
              ret (Operation.TargetLink o, None)
          end
      end
  end.

(** The instance descriptor that [CreateInstance] builds.  Fields that the
    composite literal leaves out have Go's zero value: the access
    configuration only sets [Type], so its [NatIP] is the empty string. *)
Definition newInstance (name rootDisk : string) : Instance.t :=
  let prefix := ("https://www.googleapis.com/compute/v1/projects/" ++ projectId F)%string in
  {| Instance.Name := name;
     Instance.Description := "Docker on GCE";
     Instance.MachineType := (prefix ++ instanceType F)%string;
     Instance.Disks :=
       [ Some {| AttachedDisk.Boot := true;
                 AttachedDisk.Type_ := "PERSISTENT";
                 AttachedDisk.Mode := "READ_WRITE";
                 AttachedDisk.Source := rootDisk |} ];
     Instance.NetworkInterfaces :=
       [ Some {| NetworkInterface.AccessConfigs :=
                   [ Some {| AccessConfig.Type_ := "ONE_TO_ONE_NAT";
                             AccessConfig.NatIP := "" |} ];
                 NetworkInterface.Network := (prefix ++ "/global/networks/default")%string |} ];
     Instance.Metadata :=
       Some {| Metadata.Items :=
                 [ Some {| MetadataItems.Key := "startup-script";
                           MetadataItems.Value := startup |} ] |} |}.

(** [instance.NetworkInterfaces[0].AccessConfigs[0].NatIP] *)
Definition firstNatIP (instance : Instance.t) : M W string :=
  ni <- index (Instance.NetworkInterfaces instance) 0 ;;
  ni <- deref ni ;;
  ac <- index (NetworkInterface.AccessConfigs ni) 0 ;;
  ac <- deref ac ;;
  ret (AccessConfig.NatIP ac).

(** Implementation of the Cloud interface: create the instance.  The API
    client serialises the descriptor it is handed and does not write to
    it, so what the program reads back at the end is what it built. *)
Definition CreateInstance (fuel : nat) (name zone : string)
  : M W (string * option error) :=
  '(rootDisk, err) <- getOrCreateRootDisk fuel (diskName F) zone ;;
  match err with
  | Some _ =>
      log_Printf "failed to create root disk: %v" [VError err] ;;
      ret ("", err)
  | None =>
      let instance := newInstance name rootDisk in
      log_Printf "starting instance: %q" [VString name] ;;
      '(op, err) <- request (InstancesInsert (projectId F) zone instance)
                            (Instances_Insert P (projectId F) zone instance) ;;
      match err with
      | Some _ =>
          log_Printf "instance insert api call failed: %v" [VError err] ;;
          ret ("", err)
      | None =>
          err <- waitForOp fuel op zone ;;
          match err with
          | Some _ =>
              log_Printf "instance insert operation failed: %v" [VError err] ;;
              ret ("", err)
          | None =>
              (* Wait for docker to come up *)
              time_Sleep (60 * Second) ;;
              ip <- firstNatIP instance ;;
              log_Printf "instance started: %q" [VString ip] ;;
              ip <- firstNatIP instance ;;
              ret (ip, err)
          end
      end
  end.

(** Implementation of the Cloud interface: delete the instance. *)
Definition DeleteInstance (fuel : nat) (name zone : string) : M W (option error) :=
  log_Printf "deleting instance" [] ;;
  '(op, err) <- request (InstancesDelete (projectId F) zone name)
                        (Instances_Delete P (projectId F) zone name) ;;
  match err with
  | Some _ =>
      log_Printf "Got compute.Operation, err: %#v, %v" [VOperation op; VError err] ;;
      ret err
  | None =>
      err <- waitForOp fuel op zone ;;
      log_Printf "instance deleted" [] ;;
      ret err
  end.

(** The arguments handed to [ssh]. *)
Definition sshCommand (homedir username ip hostname : string) (localPort remotePort : Z)
  : string :=
  "-o LogLevel=quiet -o UserKnownHostsFile=/dev/null -o CheckHostIP=no -o StrictHostKeyChecking=no -i "
    ++ homedir ++ "/.ssh/google_compute_engine -A -p 22 "
    ++ username ++ "@" ++ ip ++ " -f -N -L "
    ++ fmt_d localPort ++ ":" ++ hostname ++ ":" ++ fmt_d remotePort.

Definition openSecureTunnel (name zone hostname : string) (localPort remotePort : Z)
  : M W (option Process * option error) :=
  '(ip, err) <- GetPublicIPAddress name zone ;;
  match err with
  | Some _ => ret (None, err)
  | None =>
      let username := env_USER F in
      let homedir := env_HOME F in
      let command := sshCommand homedir username ip hostname localPort remotePort in
      log_Printf "Running %s" [VString command] ;;
      (* cmd.Run(): its error is dropped *)
      '(process, _) <- request (Run "ssh" (strings_Split command " "))
                               (exec_Run P "ssh" (strings_Split command " ")) ;;
      ret (process, None)
  end.

Definition OpenSecureTunnel (name zone : string) (localPort remotePort : Z)
  : M W (option Process * option error) :=
  openSecureTunnel name zone "localhost" localPort remotePort.

(** The call [gcloudTransport()]: the function [Credentials.gcloudTransport]
    run on the host of the world, at the path of the flag.  Its steps are
    recorded as events, and its panic on an empty cache is a panic of the
    caller. *)
Definition gcloudTransport_call
  : M W (option Credentials.Transport * option error) :=
  fun w =>
    let (host, w1) := credentials P w in
    let (result, steps) :=
      Credentials.gcloudTransport host (gcloudCredentialsPath F) in
    mkResult result w1 (map Credential steps).

(** Create a GCE Cloud instance: failing to build the client is fatal.  The
    method [Client] of the transport only wraps the pointer it is called on,
    and [compute.New] is the provider's. *)
Definition NewGCECloud : M W unit :=
  (* Set up a gcloud transport. *)
  '(transport, err) <- gcloudTransport_call ;;
  match err with
  | Some _ => log_Fatalf "unable to create gcloud transport: %v" [VError err]
  | None =>
      err <- request NewService (compute_New P) ;;
      match err with
      | Some _ => log_Fatalf "Error creating service: %v" [VError err]
      | None => ret tt
      end
  end.

(** Modelled from the spec: [dockercloud.NewCloudGce], which [main] calls
    and no source file defines.  The spec has the authenticated client
    built once, at the start of the process, its failure being fatal; the
    sources hold one constructor, [NewGCECloud], of the one implementation
    of the [Cloud] interface, and [NewCloudGce] is taken to be it. *)
Definition NewCloudGce : M W unit := NewGCECloud.

End GCECloud.

(** ** The orchestrator, [docker-cloud.go] *)

Section DockerCloud.

Context {W : Type}.
Variable P : Provider W.
Variable F : Flags.

Definition GetOrCreateInstance (fuel : nat) : M W (string * option error) :=
  '(ip, err) <- GetPublicIPAddress P F (instanceName F) (zone F) ;;
  let instanceRunning := (0 <? String.length ip)%nat in
  if instanceRunning then ret (ip, err)
  else
    (* Otherwise create a new VM. *)
    CreateInstance P F fuel (instanceName F) (zone F).

(** [case "start"] of [main]: the last statement receives from a nil
    channel and never returns. *)
Definition start (fuel : nat) : M W unit :=
  '(_, err) <- GetOrCreateInstance fuel ;;
  match err with
  | Some _ => log_Fatalf "failed to create VM instance" []
  | None =>
      '(_, err) <- OpenSecureTunnel P F (instanceName F) (zone F) (tunnelPort F) (dockerPort F) ;;
      match err with
      | Some _ => log_Fatalf "failed to create SSH tunnel" []
      | None => stop Blocked
      end
  end.

(** [case "stop"] of [main]. *)
Definition stop_instance (fuel : nat) : M W unit :=
  err <- DeleteInstance P F fuel (instanceName F) (zone F) ;;
  match err with
  | Some _ => log_Fatalf "failed to delete VM instance" []
  | None => ret tt
  end.

(** [main], with [args] the command-line arguments left after the flags. *)
Definition main (fuel : nat) (args : list string) : M W unit :=
  match args with
  | [] =>
      emit (Print ("usage: docker-cloud start|stop" ++ String "010" "")) ;;
      emit Usage ;;
      emit PrintDefaults ;;
      stop (Exit (-1))
  | verb :: _ =>
      NewCloudGce P F ;;
      if verb =? "start" then start fuel
      else if verb =? "stop" then stop_instance fuel
      else ret tt
  end.

End DockerCloud.

(** ** A scripted outside world

    For running the program on concrete inputs: every kind of request has
    its list of answers, handed out in order; a request whose list is used
    up is answered with an error and a nil pointer. *)

Module Script.

Record World : Type := mkWorld
  { instances : list (Answer Instance.t);
    instance_inserts : list (Answer Operation.t);
    instance_deletes : list (Answer Operation.t);
    disks : list (Answer Disk.t);
    disk_inserts : list (Answer Operation.t);
    operations : list (Answer Operation.t);
    runs : list (option Process * option error);
    clients : list (option error) }.

Definition exhausted {T} : option T * option error :=
  (None, Some (external "no answer")).

Definition next {T} (script : list T) (default : T) : T * list T :=
  match script with
  | [] => (default, [])
  | a :: rest => (a, rest)
  end.

(** A host whose cache holds one entry and whose token endpoint accepts the
    refresh; opening the cache gives the error [open], if any. *)
Definition readable (open : option error) : Credentials.Host :=
  {| Credentials.os_Open := fun _ => open;
     Credentials.json_Decode :=
       fun _ => ({| Credentials.Data := [Credentials.first_entry] |}, None);
     Credentials.oauth_Refresh := fun _ => None |}.

Definition provider : Provider World :=
  {| Instances_Get := fun _ _ _ w =>
       let (a, rest) := next (instances w) exhausted in
       (a, mkWorld rest (instance_inserts w) (instance_deletes w) (disks w)
                   (disk_inserts w) (operations w) (runs w) (clients w));
     Instances_Insert := fun _ _ _ w =>
       let (a, rest) := next (instance_inserts w) exhausted in
       (a, mkWorld (instances w) rest (instance_deletes w) (disks w)
                   (disk_inserts w) (operations w) (runs w) (clients w));
     Instances_Delete := fun _ _ _ w =>
       let (a, rest) := next (instance_deletes w) exhausted in
       (a, mkWorld (instances w) (instance_inserts w) rest (disks w)
                   (disk_inserts w) (operations w) (runs w) (clients w));
     Disks_Get := fun _ _ _ w =>
       let (a, rest) := next (disks w) exhausted in
       (a, mkWorld (instances w) (instance_inserts w) (instance_deletes w) rest
                   (disk_inserts w) (operations w) (runs w) (clients w));
     Disks_Insert := fun _ _ _ _ w =>
       let (a, rest) := next (disk_inserts w) exhausted in
       (a, mkWorld (instances w) (instance_inserts w) (instance_deletes w) (disks w)
                   rest (operations w) (runs w) (clients w));
     ZoneOperations_Get := fun _ _ _ w =>
       let (a, rest) := next (operations w) exhausted in
       (a, mkWorld (instances w) (instance_inserts w) (instance_deletes w) (disks w)
                   (disk_inserts w) rest (runs w) (clients w));
     exec_Run := fun _ _ w =>
       let (a, rest) := next (runs w) exhausted in
       (a, mkWorld (instances w) (instance_inserts w) (instance_deletes w) (disks w)
                   (disk_inserts w) (operations w) rest (clients w));
     credentials := fun w =>
       let (a, rest) := next (clients w) None in
       (readable a,
        mkWorld (instances w) (instance_inserts w) (instance_deletes w) (disks w)
                (disk_inserts w) (operations w) (runs w) rest);
     compute_New := fun w =>
       let (a, rest) := next (clients w) None in
       (a, mkWorld (instances w) (instance_inserts w) (instance_deletes w) (disks w)
                   (disk_inserts w) (operations w) (runs w) rest) |}.

Definition empty : World := mkWorld [] [] [] [] [] [] [] [].

(** The default values of the flags, for a user [u] with home [/home/u]
    and a project [p]. *)
Definition flags : Flags :=
  {| projectId := "p";
     instanceType := "/zones/us-central1-a/machineTypes/n1-standard-1";
     image := "https://www.googleapis.com/compute/v1/projects/debian-cloud/global/images/backports-debian-7-wheezy-v20131127";
     diskName := "docker-root";
     diskSizeGb := 100;
     dockerPort := 8000;
     tunnelPort := 8001;
     instanceName := "docker-instance";
     zone := "us-central1-a";
     env_USER := "u";
     env_HOME := "/home/u";
     gcloudCredentialsPath := "/home/u/.config/gcloud/credentials" |}.

(** An operation named [op] in a given status, fetched without error. *)
Definition op_in (status : string) : Answer Operation.t :=
  (Some {| Operation.Name := "op"; Operation.Status := status;
           Operation.TargetLink := "link/docker-root" |}, None).

Definition instance_at (ip : string) : Answer Instance.t :=
  (Some {| Instance.Name := "docker-instance";
           Instance.Description := "";
           Instance.MachineType := "";
           Instance.Disks := [];
           Instance.NetworkInterfaces :=
             [ Some {| NetworkInterface.AccessConfigs :=
                         [ Some {| AccessConfig.Type_ := "ONE_TO_ONE_NAT";
                                   AccessConfig.NatIP := ip |} ];
                       NetworkInterface.Network := "" |} ];
           Instance.Metadata := None |}, None).

Definition with_operations (l : list (Answer Operation.t)) : World :=
  mkWorld [] [] [] [] [] l [] [].

End Script.

(** ** Reading a trace *)

Definition is_fetch (e : Event) : bool :=
  match e with ZoneOperationsGet _ _ _ => true | _ => false end.

Definition is_sleep (e : Event) : bool :=
  match e with Sleep _ => true | _ => false end.

Definition is_disk_insert (e : Event) : bool :=
  match e with DisksInsert _ _ _ _ => true | _ => false end.

Definition is_instance_insert (e : Event) : bool :=
  match e with InstancesInsert _ _ _ => true | _ => false end.

Definition is_create (e : Event) : bool :=
  is_disk_insert e || is_instance_insert e.

(** The requests that change something at the provider. *)
Definition is_mutation (e : Event) : bool :=
  match e with
  | InstancesInsert _ _ _ | InstancesDelete _ _ _ | DisksInsert _ _ _ _ => true
  | _ => false
  end.

(** The requests that name a disk. *)
Definition is_disk_request (e : Event) : bool :=
  match e with
  | DisksGet _ _ _ | DisksInsert _ _ _ _ => true
  | _ => false
  end.

Definition is_spawn (e : Event) : bool :=
  match e with Run _ _ => true | _ => false end.

(** What the operation poller does: fetch, sleep, print, log. *)
Definition polling (e : Event) : bool :=
  match e with
  | ZoneOperationsGet _ _ _ | Sleep _ | Print _ | Log _ _ => true
  | _ => false
  end.

Definition count (p : Event -> bool) (l : list Event) : nat :=
  List.length (filter p l).

Definition recognized (status : string) : bool :=
  (status =? "PENDING") || (status =? "RUNNING") || (status =? "DONE").

(** [prepend ev r]: the result [r] of a continuation, after the events
    [ev] of what ran before it. *)
Definition prepend {W A} (ev : list Event) (r : Result W A) : Result W A :=
  mkResult (outcome r) (final r) (ev ++ events r).

(** [only p m]: whatever the world, [m] performs only events that satisfy
    [p]. *)
Definition only {W A} (p : Event -> bool) (m : M W A) : Prop :=
  forall w, forallb p (events (m w)) = true.

(** The log line of the polling loop after a fetch that came with an
    error. *)
Definition fetch_log (op : option Operation.t) (err : option error) : list Event :=
  match err with
  | Some _ => [Log "Got compute.Operation, err: %#v, %v" [VOperation op; VError err]]
  | None => []
  end.

(** The poller's events, with its sleeps being of five seconds. *)
Definition polling_5s (e : Event) : bool :=
  match e with
  | ZoneOperationsGet _ _ _ | Print _ | Log _ _ => true
  | Sleep d => (d =? 5 * Second)%Z
  | _ => false
  end.

Definition is_log (e : Event) : bool :=
  match e with Log _ _ => true | _ => false end.

Definition is_instance_get (e : Event) : bool :=
  match e with InstancesGet _ _ _ => true | _ => false end.

(** The requests to the compute API. *)
Definition is_api_request (e : Event) : bool :=
  match e with
  | InstancesGet _ _ _ | InstancesInsert _ _ _ | InstancesDelete _ _ _
  | DisksGet _ _ _ | DisksInsert _ _ _ _ | ZoneOperationsGet _ _ _ => true
  | _ => false
  end.

(** [settles m m']: on every world where [m] ends otherwise than by
    running out of fuel, [m'] does exactly what [m] does. *)
Definition settles {W A} (m m' : M W A) : Prop :=
  forall w, outcome (m w) <> Stop OutOfFuel -> m' w = m w.

(** A provider whose operations never leave the status PENDING. *)
Module Pending.

Definition refused {T} : Answer T := (None, Some (external "refused")).

Definition operation : Operation.t :=
  {| Operation.Name := "op"; Operation.Status := "PENDING";
     Operation.TargetLink := "" |}.

Definition provider : Provider unit :=
  {| Instances_Get := fun _ _ _ w => (refused, w);
     Instances_Insert := fun _ _ _ w => (refused, w);
     Instances_Delete := fun _ _ _ w => (refused, w);
     Disks_Get := fun _ _ _ w => (refused, w);
     Disks_Insert := fun _ _ _ _ w => (refused, w);
     ZoneOperations_Get := fun _ _ _ w => ((Some operation, None), w);
     exec_Run := fun _ _ w => ((None, Some (external "refused")), w);
     credentials := fun w => (Script.readable None, w);
     compute_New := fun w => (None, w) |}.

End Pending.

(** The number of space characters of a string. *)
Fixpoint spaces (s : string) : nat :=
  match s with
  | EmptyString => 0
  | String c rest => (if Ascii.eqb c " " then 1 else 0) + spaces rest
  end.

(** The instance has a first network interface with a first access
    configuration, both non-nil. *)
Definition first_config (i : option Instance.t) : option AccessConfig.t :=
  match i with
  | Some inst =>
      match Instance.NetworkInterfaces inst with
      | Some ni :: _ =>
          match NetworkInterface.AccessConfigs ni with
          | Some ac :: _ => Some ac
          | _ => None
          end
      | _ => None
      end
  | None => None
  end.

(** [atmost n p m]: whatever the world, [m] performs at most [n] events
    that satisfy [p]. *)
Definition atmost {W A} (n : nat) (p : Event -> bool) (m : M W A) : Prop :=
  forall w, count p (events (m w)) <= n.

(** No sleep other than the poller's five seconds. *)
Definition short_sleep (e : Event) : bool :=
  match e with
  | Sleep d => (d =? 5 * Second)%Z
  | _ => true
  end.

(** The same flags with another disk size. *)
Definition with_diskSizeGb (F : Flags) (size : Z) : Flags :=
  {| projectId := projectId F;
     instanceType := instanceType F;
     image := image F;
     diskName := diskName F;
     diskSizeGb := size;
     dockerPort := dockerPort F;
     tunnelPort := tunnelPort F;
     instanceName := instanceName F;
     zone := zone F;
     env_USER := env_USER F;
     env_HOME := env_HOME F;
     gcloudCredentialsPath := gcloudCredentialsPath F |}.

Definition is_instance_delete (e : Event) : bool :=
  match e with InstancesDelete _ _ _ => true | _ => false end.

(** [stops_within allowed m]: whatever the world, when [m] does not return
    it ends in one of the [allowed] ways. *)
Definition stops_within {W A} (allowed : Abort -> bool) (m : M W A) : Prop :=
  forall w, match outcome (m w) with
            | Ret _ => True
            | Stop why => allowed why = true
            end.

(** A panic, or the end of the fuel: not an exit of the process and not a
    blocked receive. *)
Definition panics_only (why : Abort) : bool :=
  match why with
  | nil_dereference | index_out_of_range | OutOfFuel => true
  | Fatal | Exit _ | Blocked => false
  end.


(** A panic and nothing else. *)
Definition panics (why : Abort) : bool :=
  match why with
  | nil_dereference | index_out_of_range => true
  | Fatal | Exit _ | Blocked | OutOfFuel => false
  end.

(** The steps of the credentials, among the events. *)
Definition is_credential (e : Event) : bool :=
  match e with Credential _ => true | _ => false end.

(** * Properties *)

(** ** Running a computation step by step *)

Section Steps.

Context {W : Type}.

Lemma prepend_nil A (r : Result W A) : prepend [] r = r.
Proof. destruct r; reflexivity. Qed.

Lemma prepend_prepend A ev1 ev2 (r : Result W A) :
  prepend ev1 (prepend ev2 r) = prepend (ev1 ++ ev2) r.
Proof. unfold prepend; cbn. now rewrite app_assoc. Qed.

Lemma run_bind A B (m : M W A) (k : A -> M W B) w a w1 ev1 :
  m w = mkResult (Ret a) w1 ev1 ->
  bind m k w = prepend ev1 (k a w1).
Proof.
  intros H. cbn. unfold M_bind. rewrite H.
  destruct (k a w1); reflexivity.
Qed.

Lemma run_bind_stop A B (m : M W A) (k : A -> M W B) w why w1 ev1 :
  m w = mkResult (Stop why) w1 ev1 ->
  bind m k w = mkResult (Stop why) w1 ev1.
Proof. intros H. cbn. unfold M_bind. now rewrite H. Qed.

Lemma run_request R e (f : W -> R * W) w r w1 :
  f w = (r, w1) -> request e f w = mkResult (Ret r) w1 [e].
Proof. intros H. unfold request. now rewrite H. Qed.

Lemma run_request_bind R B e (f : W -> R * W) (k : R -> M W B) w r w1 :
  f w = (r, w1) -> bind (request e f) k w = prepend [e] (k r w1).
Proof. intros H. apply run_bind. now apply run_request. Qed.

Lemma run_emit_bind B e (k : unit -> M W B) w :
  bind (emit e) k w = prepend [e] (k tt w).
Proof. now apply run_bind. Qed.

Lemma run_ret_bind A B (a : A) (k : A -> M W B) w :
  bind (ret a) k w = k a w.
Proof. rewrite (run_bind _ _ _ _ w a w []) by reflexivity. apply prepend_nil. Qed.

(** *** Events of one kind only *)

Lemma only_ret p A (a : A) : only p (ret a : M W A).
Proof. intro w; reflexivity. Qed.

Lemma only_stop p A why : only p (stop why : M W A).
Proof. intro w; reflexivity. Qed.

Lemma only_bind p A B (m : M W A) (k : A -> M W B) :
  only p m -> (forall a, only p (k a)) -> only p (bind m k).
Proof.
  intros Hm Hk w. cbn. unfold M_bind.
  specialize (Hm w). destruct (m w) as [[a|why] w1 ev1]; cbn in *.
  - specialize (Hk a w1). destruct (k a w1) as [o w2 ev2]; cbn in *.
    now rewrite forallb_app, Hm, Hk.
  - exact Hm.
Qed.

Lemma only_emit p e : p e = true -> only p (emit e : M W unit).
Proof. intros H w; cbn. now rewrite H. Qed.

Lemma only_request p R e (f : W -> R * W) : p e = true -> only p (request e f).
Proof. intros H w; unfold request. destruct (f w). cbn. now rewrite H. Qed.

Lemma only_deref p A (o : option A) : only p (deref o : M W A).
Proof. destruct o; intro w; reflexivity. Qed.

Lemma only_index p A (l : list A) i : only p (index l i : M W A).
Proof. unfold index. destruct (nth_error l i); intro w; reflexivity. Qed.

Lemma only_weaken (p q : Event -> bool) A (m : M W A) :
  (forall e, p e = true -> q e = true) -> only p m -> only q m.
Proof.
  intros Hpq Hm w. specialize (Hm w).
  rewrite forallb_forall in *. auto.
Qed.

End Steps.

Lemma filter_none (p q : Event -> bool) (l : list Event) :
  (forall e, p e = true -> q e = false) ->
  forallb p l = true -> filter q l = [].
Proof.
  intros Hpq. induction l as [|e l IH]; cbn; [reflexivity|].
  intros H. apply andb_prop in H as [He Hl].
  rewrite (Hpq e He). auto.
Qed.

Lemma count_app p l1 l2 : count p (l1 ++ l2) = count p l1 + count p l2.
Proof. unfold count. now rewrite filter_app, length_app. Qed.

Ltac only_step :=
  first
    [ apply only_ret | apply only_stop | apply only_deref | apply only_index
    | apply only_emit; reflexivity | apply only_request; reflexivity
    | apply only_bind; [ | intros ]
    | match goal with
      | |- only _ (match ?x with _ => _ end) => destruct x
      | |- only _ (if ?b then _ else _) => destruct b
      end
    | progress unfold log_Printf, log_Fatalf, fmt_Print, time_Sleep ].

Ltac only_tac := repeat only_step.

Ltac only_with tac := repeat first [ tac | only_step ].

(** ** The operation poller *)

Section Poller.

Context {W : Type}.
Variable P : Provider W.
Variable F : Flags.

Lemma waitForOp_loop_polling fuel : forall zone op err,
  only polling (waitForOp_loop P F fuel zone op err).
Proof.
  induction fuel; intros zone op err; cbn [waitForOp_loop]; only_tac.
  apply IHfuel.
Qed.

Lemma waitForOp_polling fuel op zone : only polling (waitForOp P F fuel op zone).
Proof. unfold waitForOp; only_tac. apply waitForOp_loop_polling. Qed.

(** The first fetch. *)
Lemma waitForOp_first fuel o zone w op1 e1 w1 :
  ZoneOperations_Get P (projectId F) zone (Operation.Name o) w = ((op1, e1), w1) ->
  waitForOp P F fuel (Some o) zone w
  = prepend [ZoneOperationsGet (projectId F) zone (Operation.Name o)]
            (waitForOp_loop P F fuel zone op1 e1 w1).
Proof.
  intros H. unfold waitForOp. cbn [deref]. rewrite run_ret_bind.
  now rewrite (run_request_bind _ _ _ _ _ _ _ _ H).
Qed.

(** The loop ends on [DONE] and hands back the error of the last fetch. *)
Lemma waitForOp_loop_done fuel zone o err w :
  Operation.Status o = "DONE" ->
  waitForOp_loop P F fuel zone (Some o) err w
  = mkResult (Ret err) w [Print (String "010" "")].
Proof.
  intros H. destruct fuel; cbn [waitForOp_loop deref];
    rewrite run_ret_bind, H; reflexivity.
Qed.

Lemma waitForOp_loop_fetch fuel zone o err w op1 e1 w1 :
  (Operation.Status o =? "DONE") = false ->
  ZoneOperations_Get P (projectId F) zone (Operation.Name o) w = ((op1, e1), w1) ->
  waitForOp_loop P F (S fuel) zone (Some o) err w
  = prepend ([Print "."; Sleep (5 * Second);
              ZoneOperationsGet (projectId F) zone (Operation.Name o)]
             ++ fetch_log op1 e1)
      (match op1 with
       | None => mkResult (Stop nil_dereference) w1 []
       | Some o1 =>
           if recognized (Operation.Status o1)
           then waitForOp_loop P F fuel zone op1 e1 w1
           else mkResult (Ret (Some (errors_New "Bad operation: %s" o1))) w1
                  [Log ("Error waiting for operation: %s" ++ String "010" "")
                       [VOperation op1]]
       end).
Proof.
  intros Hs H. cbn [waitForOp_loop deref]. rewrite run_ret_bind, Hs.
  cbn [negb]. unfold fmt_Print, time_Sleep, log_Printf.
  rewrite !run_emit_bind.
  rewrite (run_request_bind _ _ _ _ _ _ _ _ H).
  rewrite !prepend_prepend. cbn [app].
  assert (E : forall B (k : unit -> M W B),
             bind (match e1 with
                   | Some _ => emit (Log "Got compute.Operation, err: %#v, %v"
                                         [VOperation op1; VError e1])
                   | None => ret tt
                   end) k w1
             = prepend (fetch_log op1 e1) (k tt w1)).
  { intros B k. destruct e1; cbn [fetch_log].
    - apply run_emit_bind.
    - now rewrite run_ret_bind, prepend_nil. }
  rewrite E, prepend_prepend. f_equal.
  destruct op1 as [o1|]; cbn [deref].
  - rewrite run_ret_bind. unfold recognized.
    destruct (Operation.Status o1 =? "PENDING"),
             (Operation.Status o1 =? "RUNNING"),
             (Operation.Status o1 =? "DONE"); cbn [negb andb orb];
      reflexivity.
  - now rewrite (run_bind_stop _ _ _ _ _ nil_dereference w1 []).
Qed.

Lemma fetch_log_polling op err : forallb polling (fetch_log op err) = true.
Proof. destruct err; reflexivity. Qed.

Lemma fetch_log_no_fetch op err : filter is_fetch (fetch_log op err) = [].
Proof. destruct err; reflexivity. Qed.

Lemma fetch_log_no_sleep op err : filter is_sleep (fetch_log op err) = [].
Proof. destruct err; reflexivity. Qed.

(** Inside the loop a status that is not recognized ends the wait at
    once: the world is the one the fetch left, and the only event after
    the fetch (and its error log, if any) is the log line of the failure. *)
Lemma waitForOp_loop_unrecognized fuel zone o err w o1 e1 w1 :
  (Operation.Status o =? "DONE") = false ->
  ZoneOperations_Get P (projectId F) zone (Operation.Name o) w = ((Some o1, e1), w1) ->
  recognized (Operation.Status o1) = false ->
  waitForOp_loop P F (S fuel) zone (Some o) err w
  = mkResult (Ret (Some (errors_New "Bad operation: %s" o1))) w1
      ([Print "."; Sleep (5 * Second);
        ZoneOperationsGet (projectId F) zone (Operation.Name o)]
       ++ fetch_log (Some o1) e1
       ++ [Log ("Error waiting for operation: %s" ++ String "010" "")
               [VOperation (Some o1)]]).
Proof.
  intros Hs H Hr. rewrite (waitForOp_loop_fetch _ _ _ _ _ _ _ _ Hs H), Hr.
  unfold prepend; cbn [outcome final events]. now rewrite <- app_assoc.
Qed.

(** Inside the loop a fetch that hands back a nil operation ends the wait
    in a nil dereference, right after the error has been logged. *)
Lemma waitForOp_loop_nil_operation fuel zone o err w e1 w1 :
  (Operation.Status o =? "DONE") = false ->
  ZoneOperations_Get P (projectId F) zone (Operation.Name o) w = ((None, e1), w1) ->
  waitForOp_loop P F (S fuel) zone (Some o) err w
  = mkResult (Stop nil_dereference) w1
      ([Print "."; Sleep (5 * Second);
        ZoneOperationsGet (projectId F) zone (Operation.Name o)]
       ++ fetch_log None e1).
Proof.
  intros Hs H. rewrite (waitForOp_loop_fetch _ _ _ _ _ _ _ _ Hs H).
  unfold prepend; cbn [outcome final events]. now rewrite app_nil_r.
Qed.

(** The status of the first fetch is compared with DONE and with nothing
    else: whatever it is, the wait goes on to sleep and fetch again. *)
Lemma waitForOp_first_not_done fuel zone o w o1 e1 w1 op2 e2 w2 :
  ZoneOperations_Get P (projectId F) zone (Operation.Name o) w = ((Some o1, e1), w1) ->
  (Operation.Status o1 =? "DONE") = false ->
  ZoneOperations_Get P (projectId F) zone (Operation.Name o1) w1 = ((op2, e2), w2) ->
  exists rest,
    waitForOp P F (S fuel) (Some o) zone w
    = prepend ([ZoneOperationsGet (projectId F) zone (Operation.Name o);
                Print "."; Sleep (5 * Second);
                ZoneOperationsGet (projectId F) zone (Operation.Name o1)]
               ++ fetch_log op2 e2) rest.
Proof.
  intros H1 Hs H2. eexists.
  rewrite (waitForOp_first _ _ _ _ _ _ _ H1).
  rewrite (waitForOp_loop_fetch _ _ _ _ _ _ _ _ Hs H2).
  rewrite prepend_prepend. reflexivity.
Qed.

(** C5: when the successive fetches of an operation show the statuses
    PENDING, RUNNING and DONE (the last one fetched without error), the
    wait performs exactly three status fetches, sleeps between them, and
    returns nil; two iterations of the loop are enough, and more change
    nothing. *)
Theorem waitForOp_pending_running_done
        fuel zone (op : Operation.t) w op1 e1 w1 op2 e2 w2 op3 w3 :
  ZoneOperations_Get P (projectId F) zone (Operation.Name op) w
    = ((Some op1, e1), w1) ->
  Operation.Status op1 = "PENDING" ->
  ZoneOperations_Get P (projectId F) zone (Operation.Name op1) w1
    = ((Some op2, e2), w2) ->
  Operation.Status op2 = "RUNNING" ->
  ZoneOperations_Get P (projectId F) zone (Operation.Name op2) w2
    = ((Some op3, None), w3) ->
  Operation.Status op3 = "DONE" ->
  2 <= fuel ->
  let r := waitForOp P F fuel (Some op) zone w in
  outcome r = Ret None
  /\ final r = w3
  /\ filter is_fetch (events r)
     = [ZoneOperationsGet (projectId F) zone (Operation.Name op);
        ZoneOperationsGet (projectId F) zone (Operation.Name op1);
        ZoneOperationsGet (projectId F) zone (Operation.Name op2)]
  /\ count is_fetch (events r) = 3
  /\ count is_sleep (events r) = 2.
Proof.
  intros H1 S1 H2 S2 H3 S3 Hfuel r. subst r.
  destruct fuel as [|[|fuel]]; try lia.
  rewrite (waitForOp_first _ _ _ _ _ _ _ H1).
  rewrite (waitForOp_loop_fetch _ _ _ _ _ _ _ _
             ltac:(rewrite S1; reflexivity) H2).
  unfold recognized at 1. rewrite S2. cbn [String.eqb Ascii.eqb Bool.eqb orb].
  rewrite (waitForOp_loop_fetch _ _ _ _ _ _ _ _
             ltac:(rewrite S2; reflexivity) H3).
  unfold recognized at 1. rewrite S3. cbn [String.eqb Ascii.eqb Bool.eqb orb].
  rewrite (waitForOp_loop_done _ _ _ _ _ S3).
  unfold prepend, count; cbn [outcome final events fetch_log].
  repeat split; rewrite ?filter_app, ?fetch_log_no_fetch, ?fetch_log_no_sleep;
    reflexivity.
Qed.

End Poller.

(** A run of the three-status sequence on the scripted world. *)
Lemma waitForOp_pending_running_done_witness :
  outcome (waitForOp Script.provider Script.flags 2
             (fst (Script.op_in "PENDING")) "us-central1-a"
             (Script.with_operations
                [Script.op_in "PENDING"; Script.op_in "RUNNING"; Script.op_in "DONE"]))
  = Ret None.
Proof.
  apply (waitForOp_pending_running_done Script.provider Script.flags 2 "us-central1-a"
           _ (Script.with_operations
                [Script.op_in "PENDING"; Script.op_in "RUNNING"; Script.op_in "DONE"])
           _ None _ _ None _ _ _
           eq_refl eq_refl eq_refl eq_refl eq_refl eq_refl).
  lia.
Defined.

(** C1, at the first fetch: the status of the first fetch is only compared
    with DONE.  Here the first fetch shows FAILED and the next one DONE: the
    wait sleeps, fetches a second time and returns nil. *)
Theorem waitForOp_first_status_unchecked :
  let r := waitForOp Script.provider Script.flags 1
             (fst (Script.op_in "PENDING")) "us-central1-a"
             (Script.with_operations [Script.op_in "FAILED"; Script.op_in "DONE"]) in
  outcome r = Ret None
  /\ filter is_fetch (events r)
     = [ZoneOperationsGet "p" "us-central1-a" "op";
        ZoneOperationsGet "p" "us-central1-a" "op"]
  /\ filter is_sleep (events r) = [Sleep (5 * Second)].
Proof. vm_compute. repeat split. Qed.

(** C2, when the fetch that fails hands back a nil operation, as the API
    client does: the error is logged, and the status test that follows
    dereferences the nil pointer. *)
Theorem waitForOp_fetch_error_nil_operation :
  let r := waitForOp Script.provider Script.flags 5
             (fst (Script.op_in "PENDING")) "us-central1-a"
             (Script.with_operations
                [Script.op_in "PENDING";
                 (None, Some (external "connection reset"));
                 Script.op_in "DONE"]) in
  outcome r = Stop nil_dereference
  /\ count is_fetch (events r) = 2
  /\ Script.operations (final r) = [Script.op_in "DONE"].
Proof. vm_compute. repeat split. Qed.

(** ** The address resolver and the tunnel launcher *)

Section Resolver.

Context {W : Type}.
Variable P : Provider W.
Variable F : Flags.

(** The resolver sends one instance lookup and nothing else. *)
Lemma GetPublicIPAddress_events name zone w :
  events (GetPublicIPAddress P F name zone w) = [InstancesGet (projectId F) zone name].
Proof.
  unfold GetPublicIPAddress.
  destruct (Instances_Get P (projectId F) zone name w) as [[i e] w1] eqn:H.
  rewrite (run_request_bind _ _ _ _ _ _ _ _ H).
  destruct e as [e|]; [reflexivity|].
  destruct i as [i|]; [|reflexivity].
  cbn [deref]. rewrite run_ret_bind. unfold index.
  destruct (nth_error (Instance.NetworkInterfaces i) 0) as [[ni|]|]; try reflexivity.
  rewrite run_ret_bind. cbn [deref]. rewrite run_ret_bind.
  destruct (nth_error (NetworkInterface.AccessConfigs ni) 0) as [[ac|]|];
    reflexivity.
Qed.

(** An address that comes back non-empty comes back without an error. *)
Lemma GetPublicIPAddress_address_no_error name zone w ip err :
  outcome (GetPublicIPAddress P F name zone w) = Ret (ip, err) ->
  ip <> "" -> err = None.
Proof.
  unfold GetPublicIPAddress.
  destruct (Instances_Get P (projectId F) zone name w) as [[i e] w1] eqn:H.
  rewrite (run_request_bind _ _ _ _ _ _ _ _ H).
  destruct e as [e|]; [cbn; intros [= <- <-]; congruence|].
  destruct i as [i|]; [|discriminate].
  cbn [deref]. rewrite run_ret_bind. unfold index.
  destruct (nth_error (Instance.NetworkInterfaces i) 0) as [[ni|]|]; try discriminate.
  rewrite run_ret_bind. cbn [deref]. rewrite run_ret_bind.
  destruct (nth_error (NetworkInterface.AccessConfigs ni) 0) as [[ac|]|];
    try discriminate.
  cbn. now intros [= _ <-].
Qed.

(** C7, as the code has it: a failed lookup is returned as an error with
    an empty address; a found instance with a first network interface and
    a first access configuration gives that configuration's external
    address and no error; and once the lookup has succeeded no error is
    ever returned, whatever the instance looks like. *)
Theorem GetPublicIPAddress_spec name zone w i e w1 :
  Instances_Get P (projectId F) zone name w = ((i, e), w1) ->
  let r := GetPublicIPAddress P F name zone w in
  (forall err, e = Some err ->
     r = mkResult (Ret ("", Some err)) w1 [InstancesGet (projectId F) zone name])
  /\ (forall inst ni ac,
        e = None -> i = Some inst ->
        nth_error (Instance.NetworkInterfaces inst) 0 = Some (Some ni) ->
        nth_error (NetworkInterface.AccessConfigs ni) 0 = Some (Some ac) ->
        r = mkResult (Ret (AccessConfig.NatIP ac, None)) w1
              [InstancesGet (projectId F) zone name])
  /\ (e = None -> forall ip err, outcome r <> Ret (ip, Some err)).
Proof.
  intros H r. subst r. unfold GetPublicIPAddress.
  rewrite (run_request_bind _ _ _ _ _ _ _ _ H).
  repeat split.
  - intros err ->. reflexivity.
  - intros inst ni ac -> -> Hni Hac. cbn [deref]. rewrite run_ret_bind.
    unfold index. rewrite Hni, run_ret_bind. cbn [deref].
    rewrite run_ret_bind, Hac. reflexivity.
  - intros -> ip err.
    destruct i as [inst|]; [|discriminate].
    cbn [deref]. rewrite run_ret_bind. unfold index.
    destruct (nth_error (Instance.NetworkInterfaces inst) 0) as [[ni|]|];
      try discriminate.
    rewrite run_ret_bind. cbn [deref]. rewrite run_ret_bind.
    destruct (nth_error (NetworkInterface.AccessConfigs ni) 0) as [[ac|]|];
      discriminate.
Qed.

(** C8: when the address resolution returns an error, the tunnel launcher
    returns that error and a nil process, and has done nothing but the
    resolution: no command is run.  When the resolution returns an
    address without error, the launcher runs [ssh] once and returns the
    process with a nil error, whatever [Run] reported. *)
Theorem OpenSecureTunnel_spec name zone localPort remotePort w ip err w1 ev :
  GetPublicIPAddress P F name zone w = mkResult (Ret (ip, err)) w1 ev ->
  let r := OpenSecureTunnel P F name zone localPort remotePort w in
  (forall e, err = Some e ->
     r = mkResult (Ret (None, Some e)) w1 ev /\ count is_spawn (events r) = 0)
  /\ (err = None ->
      forall process runerr w2,
        exec_Run P "ssh"
          (strings_Split
             (sshCommand (env_HOME F) (env_USER F) ip "localhost" localPort remotePort)
             " ") w1 = ((process, runerr), w2) ->
        outcome r = Ret (process, None)
        /\ final r = w2
        /\ count is_spawn (events r) = 1).
Proof.
  intros H r. subst r. unfold OpenSecureTunnel, openSecureTunnel.
  rewrite (run_bind _ _ _ _ _ _ _ _ H).
  assert (Hev : ev = [InstancesGet (projectId F) zone name]).
  { rewrite <- (GetPublicIPAddress_events name zone w), H. reflexivity. }
  split.
  - intros e ->. cbn. rewrite app_nil_r. subst ev. split; reflexivity.
  - intros -> process runerr w2 Hrun. unfold log_Printf.
    rewrite run_emit_bind, (run_request_bind _ _ _ _ _ _ _ _ Hrun).
    subst ev. repeat split.
Qed.

End Resolver.

(** The launcher on the scripted world: a failed resolution, and a
    resolution followed by an [ssh] that fails to start. *)
Lemma OpenSecureTunnel_spec_witness :
  (let w := Script.mkWorld [(None, Some (external "not found"))] [] [] [] [] [] [] [] in
   let r := OpenSecureTunnel Script.provider Script.flags
              "docker-instance" "us-central1-a" 8001 8000 w in
   outcome r = Ret (None, Some (external "not found")) /\ count is_spawn (events r) = 0)
  /\
  (let w := Script.mkWorld [Script.instance_at "1.2.3.4"] [] [] [] [] []
              [(None, Some (external "exec: ssh: not found"))] [] in
   let r := OpenSecureTunnel Script.provider Script.flags
              "docker-instance" "us-central1-a" 8001 8000 w in
   outcome r = Ret (None, None) /\ count is_spawn (events r) = 1).
Proof.
  split.
  - pose proof (OpenSecureTunnel_spec Script.provider Script.flags
                  "docker-instance" "us-central1-a" 8001 8000
                  (Script.mkWorld [(None, Some (external "not found"))] [] [] [] [] [] [] [])
                  _ _ _ _ eq_refl) as [Herr _].
    destruct (Herr _ eq_refl) as [Hr Hc].
    split; [rewrite Hr; reflexivity | exact Hc].
  - pose proof (OpenSecureTunnel_spec Script.provider Script.flags
                  "docker-instance" "us-central1-a" 8001 8000
                  (Script.mkWorld [Script.instance_at "1.2.3.4"] [] [] [] [] []
                     [(None, Some (external "exec: ssh: not found"))] [])
                  _ _ _ _ eq_refl) as [_ Hok].
    destruct (Hok eq_refl _ _ _ eq_refl) as (Ho & _ & Hc).
    split; assumption.
Defined.

(** The resolver on the scripted world: a failed lookup, and an instance
    with one interface and one access configuration. *)
Lemma GetPublicIPAddress_spec_witness :
  GetPublicIPAddress Script.provider Script.flags "docker-instance" "us-central1-a"
    (Script.mkWorld [(None, Some (external "not found"))] [] [] [] [] [] [] [])
  = mkResult (Ret ("", Some (external "not found"))) Script.empty
      [InstancesGet "p" "us-central1-a" "docker-instance"]
  /\
  GetPublicIPAddress Script.provider Script.flags "docker-instance" "us-central1-a"
    (Script.mkWorld [Script.instance_at "1.2.3.4"] [] [] [] [] [] [] [])
  = mkResult (Ret ("1.2.3.4", None)) Script.empty
      [InstancesGet "p" "us-central1-a" "docker-instance"].
Proof.
  split.
  - exact (proj1 (GetPublicIPAddress_spec Script.provider Script.flags
                    "docker-instance" "us-central1-a"
                    (Script.mkWorld [(None, Some (external "not found"))] [] [] [] [] [] [] [])
                    _ _ _ eq_refl) _ eq_refl).
  - exact (proj1 (proj2 (GetPublicIPAddress_spec Script.provider Script.flags
                    "docker-instance" "us-central1-a"
                    (Script.mkWorld [Script.instance_at "1.2.3.4"] [] [] [] [] [] [] [])
                    _ _ _ eq_refl)) _ _ _ eq_refl eq_refl eq_refl eq_refl).
Defined.

(** C7, as the claim has it, fails on an instance without a network
    interface: the lookup succeeds, the index expression is out of range,
    and the call does not return at all, with an error or otherwise. *)
Lemma GetPublicIPAddress_no_interface_panics :
  let bare : Instance.t :=
    {| Instance.Name := "docker-instance"; Instance.Description := "";
       Instance.MachineType := ""; Instance.Disks := [];
       Instance.NetworkInterfaces := []; Instance.Metadata := None |} in
  let r := GetPublicIPAddress Script.provider Script.flags
             "docker-instance" "us-central1-a"
             (Script.mkWorld [(Some bare, None)] [] [] [] [] [] [] []) in
  outcome r = Stop index_out_of_range
  /\ ~ (exists ip err, outcome r = Ret (ip, Some err)).
Proof.
  vm_compute. split; [reflexivity|]. intros (ip & err & H). discriminate H.
Qed.

(** ** The disk manager *)

Lemma polling_count (q : Event -> bool) (l : list Event) :
  (forall e, polling e = true -> q e = false) ->
  forallb polling l = true -> count q l = 0.
Proof. intros Hq Hl. unfold count. now rewrite (filter_none polling q l Hq Hl). Qed.

Lemma polling_not_disk_insert e : polling e = true -> is_disk_insert e = false.
Proof. destruct e; cbn; congruence. Qed.

Lemma polling_not_instance_insert e : polling e = true -> is_instance_insert e = false.
Proof. destruct e; cbn; congruence. Qed.

Lemma polling_not_mutation e : polling e = true -> is_mutation e = false.
Proof. destruct e; cbn; congruence. Qed.

Lemma polling_not_disk_request e : polling e = true -> is_disk_request e = false.
Proof. destruct e; cbn; congruence. Qed.

Section DiskManager.

Context {W : Type}.
Variable P : Provider W.
Variable F : Flags.

(** The lookup found the disk. *)
Lemma getOrCreateRootDisk_found fuel name zone w d w1 :
  Disks_Get P (projectId F) zone (diskName F) w = ((Some d, None), w1) ->
  getOrCreateRootDisk P F fuel name zone w
  = mkResult (Ret (Disk.SelfLink d, None)) w1
      [Log "try getting root disk: %q" [VString name];
       DisksGet (projectId F) zone (diskName F);
       Log "found %q" [VString (Disk.SelfLink d)]].
Proof.
  intros H. unfold getOrCreateRootDisk, log_Printf.
  rewrite run_emit_bind, (run_request_bind _ _ _ _ _ _ _ _ H).
  cbn [deref]. rewrite run_ret_bind, run_emit_bind. reflexivity.
Qed.

(** The lookup failed: the insert is sent, and what follows depends on its
    answer and on the wait. *)
Lemma getOrCreateRootDisk_missing fuel name zone w d e w1 op e2 w2 :
  Disks_Get P (projectId F) zone (diskName F) w = ((d, Some e), w1) ->
  Disks_Insert P (projectId F) zone (newDisk F) (image F) w1 = ((op, e2), w2) ->
  getOrCreateRootDisk P F fuel name zone w
  = prepend [Log "try getting root disk: %q" [VString name];
             DisksGet (projectId F) zone (diskName F);
             Log "not found, creating root disk: %q" [VString name];
             DisksInsert (projectId F) zone (newDisk F) (image F)]
      (match e2 with
       | Some _ =>
           mkResult (Ret ("", e2)) w2
             [Log "disk insert api call failed: %v" [VError e2]]
       | None =>
           match waitForOp P F fuel op zone w2 with
           | mkResult (Ret (Some e3)) w3 ev3 =>
               mkResult (Ret ("", Some e3)) w3
                 (ev3 ++ [Log "disk insert operation failed: %v" [VError (Some e3)]])
           | mkResult (Ret None) w3 ev3 =>
               match op with
               | Some o =>
                   mkResult (Ret (Operation.TargetLink o, None)) w3
                     (ev3 ++ [Log "root disk created: %q"
                                  [VString (Operation.TargetLink o)]])
               | None => mkResult (Stop nil_dereference) w3 ev3
               end
           | mkResult (Stop why) w3 ev3 => mkResult (Stop why) w3 ev3
           end
       end).
Proof.
  intros H Hi. unfold getOrCreateRootDisk, log_Printf.
  rewrite run_emit_bind, (run_request_bind _ _ _ _ _ _ _ _ H).
  rewrite run_emit_bind.
  rewrite (run_request_bind _ _ _ _ _ _ _ _ Hi).
  rewrite !prepend_prepend. cbn [app]. f_equal.
  destruct e2 as [e2|]; [now rewrite run_emit_bind|].
  destruct (waitForOp P F fuel op zone w2) as [[[e3|]|why] w3 ev3] eqn:Hw.
  - rewrite (run_bind _ _ _ _ _ _ _ _ Hw), run_emit_bind. reflexivity.
  - rewrite (run_bind _ _ _ _ _ _ _ _ Hw).
    destruct op as [o|]; cbn [deref].
    + rewrite run_ret_bind, run_emit_bind. reflexivity.
    + rewrite (run_bind_stop _ _ _ _ _ nil_dereference w3 []) by reflexivity.
      unfold prepend; cbn. now rewrite app_nil_r.
  - now rewrite (run_bind_stop _ _ _ _ _ _ _ _ Hw).
Qed.

(** The disk manager never sends an instance insert. *)
Lemma getOrCreateRootDisk_no_instance_insert fuel name zone :
  only (fun e => negb (is_instance_insert e)) (getOrCreateRootDisk P F fuel name zone).
Proof.
  unfold getOrCreateRootDisk.
  only_with
    ltac:(idtac;
          match goal with
          | |- only _ (waitForOp _ _ _ _ _) =>
              apply (only_weaken polling);
              [ intros ? ?; cbv beta;
                rewrite polling_not_instance_insert by assumption; reflexivity
              | apply waitForOp_polling ]
          end).
Qed.

(** C3, as the code has it.  A lookup that finds the disk returns its
    link at once: no insert, no fetch.  A lookup that fails sends exactly
    one insert.  If the insert call fails, its error is returned and no
    wait takes place.  If the insert call is accepted, exactly one wait
    follows; when the wait returns nil the link of the created disk is
    returned, and when the wait returns an error that error is. *)
Theorem getOrCreateRootDisk_spec fuel name zone w d e w1 :
  Disks_Get P (projectId F) zone (diskName F) w = ((d, e), w1) ->
  let r := getOrCreateRootDisk P F fuel name zone w in
  (forall disk, e = None -> d = Some disk ->
     outcome r = Ret (Disk.SelfLink disk, None)
     /\ final r = w1
     /\ count is_disk_insert (events r) = 0
     /\ count is_fetch (events r) = 0)
  /\ (e <> None ->
      count is_disk_insert (events r) = 1
      /\ forall op e2 w2,
          Disks_Insert P (projectId F) zone (newDisk F) (image F) w1 = ((op, e2), w2) ->
          (forall err, e2 = Some err ->
             outcome r = Ret ("", Some err)
             /\ final r = w2
             /\ count is_fetch (events r) = 0)
          /\ (e2 = None ->
              let wait := waitForOp P F fuel op zone w2 in
              (exists tail,
                  events r
                  = [Log "try getting root disk: %q" [VString name];
                     DisksGet (projectId F) zone (diskName F);
                     Log "not found, creating root disk: %q" [VString name];
                     DisksInsert (projectId F) zone (newDisk F) (image F)]
                    ++ events wait ++ tail
                  /\ count is_fetch tail = 0)
              /\ (outcome wait = Ret None ->
                  exists o, op = Some o
                            /\ outcome r = Ret (Operation.TargetLink o, None))
              /\ (forall err, outcome wait = Ret (Some err) ->
                              outcome r = Ret ("", Some err)))).
Proof.
  intros H r. subst r. split.
  - intros disk -> ->. rewrite (getOrCreateRootDisk_found _ _ _ _ _ _ H).
    repeat split.
  - intros He. destruct e as [e|]; [clear He|congruence].
    destruct (Disks_Insert P (projectId F) zone (newDisk F) (image F) w1)
      as [[op e2] w2] eqn:Hi.
    rewrite (getOrCreateRootDisk_missing fuel name _ _ _ _ _ _ _ _ H Hi).
    pose proof (waitForOp_polling P F fuel op zone w2) as Hp.
    assert (Hc : count is_disk_insert (events (waitForOp P F fuel op zone w2)) = 0)
      by (apply polling_count; [apply polling_not_disk_insert | apply Hp]).
    split.
    + destruct e2 as [e2|]; [reflexivity|].
      destruct (waitForOp P F fuel op zone w2) as [[[e3|]|why] w3 ev3];
        cbn [events] in Hc.
      * unfold prepend; cbn [events]. rewrite !count_app, Hc. reflexivity.
      * destruct op; unfold prepend; cbn [events];
          rewrite !count_app, Hc; reflexivity.
      * unfold prepend; cbn [events]. rewrite !count_app, Hc. reflexivity.
    + intros op' e2' w2' [= <- <- <-]. split.
      * intros err ->. repeat split.
      * intros ->. cbv zeta.
        destruct (waitForOp P F fuel op zone w2) as [[[e3|]|why] w3 ev3] eqn:Hw;
          cbn [outcome events].
        -- split; [|split].
           ++ eexists. split; [reflexivity|reflexivity].
           ++ discriminate.
           ++ intros err [= <-]. reflexivity.
        -- split; [|split].
           ++ destruct op as [o|].
              ** eexists. split; [reflexivity|reflexivity].
              ** exists []. rewrite app_nil_r. split; reflexivity.
           ++ intros _. destruct op as [o|].
              ** exists o. split; reflexivity.
              ** exfalso. unfold waitForOp in Hw. cbn [deref] in Hw.
                 rewrite (run_bind_stop _ _ _ _ _ nil_dereference w2 []) in Hw
                   by reflexivity.
                 discriminate Hw.
           ++ discriminate.
        -- split; [|split].
           ++ exists []. rewrite app_nil_r. split; reflexivity.
           ++ discriminate.
           ++ discriminate.
Qed.

End DiskManager.

(** A disk that is missing and gets created, on the scripted world. *)
Lemma getOrCreateRootDisk_spec_witness :
  outcome (getOrCreateRootDisk Script.provider Script.flags 1
             "docker-root" "us-central1-a"
             (Script.mkWorld [] [] [] [(None, Some (external "not found"))]
                [Script.op_in "PENDING"]
                [Script.op_in "RUNNING"; Script.op_in "DONE"] [] []))
  = Ret ("link/docker-root", None).
Proof.
  pose proof (getOrCreateRootDisk_spec Script.provider Script.flags 1
                "docker-root" "us-central1-a"
                (Script.mkWorld [] [] [] [(None, Some (external "not found"))]
                   [Script.op_in "PENDING"]
                   [Script.op_in "RUNNING"; Script.op_in "DONE"] [] [])
                _ _ _ eq_refl) as [_ Hmiss].
  destruct (Hmiss ltac:(discriminate)) as [_ Hins].
  destruct (Hins _ _ _ eq_refl) as [_ Hok].
  destruct (Hok eq_refl) as (_ & Hdone & _).
  destruct (Hdone eq_refl) as (o & Ho & Hr).
  injection Ho as <-. exact Hr.
Defined.

(** C3, as the claim has it, fails when the insert call itself is refused:
    the lookup fails, one insert is sent, no wait follows (no status is
    fetched) and an error comes back instead of a disk reference. *)
Lemma getOrCreateRootDisk_insert_refused :
  let w := Script.mkWorld [] [] [] [(None, Some (external "not found"))]
             [(None, Some (external "quota exceeded"))] [] [] [] in
  let r := getOrCreateRootDisk Script.provider Script.flags 5
             "docker-root" "us-central1-a" w in
  snd (fst (Disks_Get Script.provider "p" "us-central1-a" "docker-root" w))
    = Some (external "not found")
  /\ count is_disk_insert (events r) = 1
  /\ count is_fetch (events r) = 0
  /\ outcome r = Ret ("", Some (external "quota exceeded"))
  /\ ~ (exists ref, outcome r = Ret (ref, None)).
Proof.
  vm_compute. repeat split. intros (ref & H). discriminate H.
Qed.

(** ** The instance manager *)

Lemma negb_filter (q : Event -> bool) (l : list Event) :
  forallb (fun e => negb (q e)) l = true -> filter q l = [].
Proof.
  apply filter_none. intros e H. now destruct (q e).
Qed.

Section InstanceManager.

Context {W : Type}.
Variable P : Provider W.
Variable F : Flags.

(** The descriptor built by [CreateInstance] has one interface with one
    access configuration, and that configuration has no external
    address. *)
Lemma firstNatIP_newInstance name disk (w : W) :
  firstNatIP (newInstance F name disk) w = mkResult (Ret "") w [].
Proof. reflexivity. Qed.

(** C9: when the disk manager returns an error, [CreateInstance] logs it
    and returns it with an empty address; the world is as the disk manager
    left it and no instance insert has been sent. *)
Theorem CreateInstance_root_disk_failure fuel name zone w d e w1 ev :
  getOrCreateRootDisk P F fuel (diskName F) zone w = mkResult (Ret (d, Some e)) w1 ev ->
  let r := CreateInstance P F fuel name zone w in
  outcome r = Ret ("", Some e)
  /\ final r = w1
  /\ events r = ev ++ [Log "failed to create root disk: %v" [VError (Some e)]]
  /\ count is_instance_insert (events r) = 0.
Proof.
  intros H r. subst r. unfold CreateInstance, log_Printf.
  rewrite (run_bind _ _ _ _ _ _ _ _ H), run_emit_bind.
  cbn [prepend outcome final events app]. repeat split.
  pose proof (getOrCreateRootDisk_no_instance_insert P F fuel (diskName F) zone w) as Hn.
  rewrite H in Hn. cbn [events] in Hn.
  unfold count. rewrite filter_app, (negb_filter _ _ Hn). reflexivity.
Qed.

(** C4: an instance creation that succeeds returns the empty string as
    the public address.  The address is read from the descriptor that was
    sent with the insert, and in that descriptor the external address of
    the first access configuration is empty. *)
Theorem CreateInstance_address_empty fuel name zone w ip :
  let r := CreateInstance P F fuel name zone w in
  outcome r = Ret (ip, None) ->
  ip = ""
  /\ exists disk,
      In (InstancesInsert (projectId F) zone (newInstance F name disk)) (events r)
      /\ forall w' : W, outcome (firstNatIP (newInstance F name disk) w') = Ret ip.
Proof.
  intros r. subst r. unfold CreateInstance, log_Printf, time_Sleep.
  destruct (getOrCreateRootDisk P F fuel (diskName F) zone w)
    as [[[disk [e|]]|why] w1 ev1] eqn:H1.
  - rewrite (run_bind _ _ _ _ _ _ _ _ H1), run_emit_bind. discriminate.
  - rewrite (run_bind _ _ _ _ _ _ _ _ H1). cbv zeta. rewrite run_emit_bind.
    destruct (Instances_Insert P (projectId F) zone (newInstance F name disk) w1)
      as [[op e2] w2] eqn:H2.
    rewrite (run_request_bind _ _ _ _ _ _ _ _ H2).
    destruct e2 as [e2|]; [rewrite run_emit_bind; discriminate|].
    destruct (waitForOp P F fuel op zone w2) as [[[e3|]|why] w3 ev3] eqn:H3.
    + rewrite (run_bind _ _ _ _ _ _ _ _ H3), run_emit_bind. discriminate.
    + rewrite (run_bind _ _ _ _ _ _ _ _ H3), run_emit_bind.
      rewrite (run_bind _ _ _ _ _ _ _ _ (firstNatIP_newInstance name disk w3)).
      rewrite run_emit_bind.
      rewrite (run_bind _ _ _ _ _ _ _ _ (firstNatIP_newInstance name disk w3)).
      cbn [prepend outcome final events M_ret ret Monad_M].
      intros [= <-]. split; [reflexivity|].
      exists disk. split; [|reflexivity].
      apply in_or_app. right. cbn [app]. right. left. reflexivity.
    + rewrite (run_bind_stop _ _ _ _ _ _ _ _ H3). discriminate.
  - rewrite (run_bind_stop _ _ _ _ _ _ _ _ H1). discriminate.
Qed.

(** C10: the requests of [DeleteInstance] that change something at the
    provider are exactly one instance delete, and no request names a
    disk.  When the delete call is accepted, one wait follows and its
    result is returned; when the delete call is refused, its error is
    returned and nothing follows. *)
Theorem DeleteInstance_frame fuel name zone w :
  let r := DeleteInstance P F fuel name zone w in
  filter is_mutation (events r) = [InstancesDelete (projectId F) zone name]
  /\ filter is_disk_request (events r) = []
  /\ (forall op w1,
        Instances_Delete P (projectId F) zone name w = ((op, None), w1) ->
        let wait := waitForOp P F fuel op zone w1 in
        (exists tail,
            events r = [Log "deleting instance" [];
                        InstancesDelete (projectId F) zone name]
                       ++ events wait ++ tail
            /\ forallb polling tail = true /\ count is_fetch tail = 0)
        /\ forall err, outcome wait = Ret err -> outcome r = Ret err)
  /\ (forall op e w1,
        Instances_Delete P (projectId F) zone name w = ((op, Some e), w1) ->
        outcome r = Ret (Some e) /\ final r = w1 /\ count is_fetch (events r) = 0).
Proof.
  intros r. subst r. unfold DeleteInstance, log_Printf.
  rewrite run_emit_bind.
  destruct (Instances_Delete P (projectId F) zone name w) as [[op e] w1] eqn:H.
  rewrite (run_request_bind _ _ _ _ _ _ _ _ H).
  destruct e as [e|].
  - rewrite run_emit_bind. cbn [prepend outcome final events app].
    split; [reflexivity|]. split; [reflexivity|]. split.
    + intros op' w' E. discriminate E.
    + intros op' e' w' [= <- <- <-]. repeat split.
  - pose proof (waitForOp_polling P F fuel op zone w1) as Hp.
    destruct (waitForOp P F fuel op zone w1) as [[err|why] w2 ev2] eqn:Hw;
      cbn [events] in Hp.
    + rewrite (run_bind _ _ _ _ _ _ _ _ Hw), run_emit_bind.
      cbn [prepend outcome final events app filter is_mutation is_disk_request].
      rewrite !filter_app.
      rewrite (filter_none _ _ _ polling_not_mutation Hp).
      rewrite (filter_none _ _ _ polling_not_disk_request Hp).
      split; [reflexivity|]. split; [reflexivity|]. split.
      * intros op' w' [= <- <-]. cbv zeta. rewrite Hw. cbn [events outcome].
        split; [|now intros err' [= <-]].
        eexists. repeat split.
      * intros op' e' w' E. discriminate E.
    + rewrite (run_bind_stop _ _ _ _ _ _ _ _ Hw).
      cbn [prepend outcome final events app filter is_mutation is_disk_request].
      rewrite (filter_none _ _ _ polling_not_mutation Hp).
      rewrite (filter_none _ _ _ polling_not_disk_request Hp).
      split; [reflexivity|]. split; [reflexivity|]. split.
      * intros op' w' [= <- <-]. cbv zeta. rewrite Hw. cbn [events outcome].
        split; [|discriminate].
        exists []. rewrite app_nil_r. repeat split.
      * intros op' e' w' E. discriminate E.
Qed.

End InstanceManager.

(** An instance creation that stops at the disk, on the scripted world. *)
Lemma CreateInstance_root_disk_failure_witness :
  let r := CreateInstance Script.provider Script.flags 5
             "docker-instance" "us-central1-a"
             (Script.mkWorld [] [] [] [(None, Some (external "not found"))]
                [(None, Some (external "quota exceeded"))] [] [] []) in
  outcome r = Ret ("", Some (external "quota exceeded"))
  /\ count is_instance_insert (events r) = 0.
Proof.
  pose proof (CreateInstance_root_disk_failure Script.provider Script.flags 5
                "docker-instance" "us-central1-a"
                (Script.mkWorld [] [] [] [(None, Some (external "not found"))]
                   [(None, Some (external "quota exceeded"))] [] [] [])
                _ _ _ _ eq_refl) as (Ho & _ & _ & Hc).
  split; assumption.
Defined.

(** An instance creation that succeeds, on the scripted world: the disk is
    found, the insert is accepted and the operation is DONE at once. *)
Lemma CreateInstance_address_empty_witness :
  exists ip,
    outcome (CreateInstance Script.provider Script.flags 1
               "docker-instance" "us-central1-a"
               (Script.mkWorld [] [Script.op_in "PENDING"] []
                  [(Some {| Disk.Name := "docker-root";
                            Disk.SelfLink := "link/docker-root" |}, None)]
                  [] [Script.op_in "DONE"] [] []))
    = Ret (ip, None)
    /\ ip = "".
Proof.
  eexists. split.
  - vm_compute. reflexivity.
  - exact (proj1 (CreateInstance_address_empty Script.provider Script.flags 1
                    "docker-instance" "us-central1-a"
                    (Script.mkWorld [] [Script.op_in "PENDING"] []
                       [(Some {| Disk.Name := "docker-root";
                                 Disk.SelfLink := "link/docker-root" |}, None)]
                       [] [Script.op_in "DONE"] [] [])
                    "" eq_refl)).
Defined.

(** A deletion that is accepted and one that is refused, on the scripted
    world. *)
Lemma DeleteInstance_frame_witness :
  (let r := DeleteInstance Script.provider Script.flags 1
              "docker-instance" "us-central1-a"
              (Script.mkWorld [] [] [Script.op_in "PENDING"] [] []
                 [Script.op_in "RUNNING"; Script.op_in "DONE"] [] []) in
   outcome r = Ret None
   /\ filter is_mutation (events r) = [InstancesDelete "p" "us-central1-a" "docker-instance"])
  /\
  (let r := DeleteInstance Script.provider Script.flags 1
              "docker-instance" "us-central1-a"
              (Script.mkWorld [] [] [(None, Some (external "not found"))] [] [] [] [] []) in
   outcome r = Ret (Some (external "not found"))
   /\ count is_fetch (events r) = 0).
Proof.
  split.
  - pose proof (DeleteInstance_frame Script.provider Script.flags 1
                  "docker-instance" "us-central1-a"
                  (Script.mkWorld [] [] [Script.op_in "PENDING"] [] []
                     [Script.op_in "RUNNING"; Script.op_in "DONE"] [] []))
      as (Hm & _ & Hok & _).
    destruct (Hok _ _ eq_refl) as [_ Hret].
    split; [exact (Hret None eq_refl) | exact Hm].
  - pose proof (DeleteInstance_frame Script.provider Script.flags 1
                  "docker-instance" "us-central1-a"
                  (Script.mkWorld [] [] [(None, Some (external "not found"))] [] [] [] [] []))
      as (_ & _ & _ & Hko).
    destruct (Hko _ _ _ eq_refl) as (Ho & _ & Hc).
    split; assumption.
Defined.

(** ** The orchestrator *)

Section Orchestrator.

Context {W : Type}.
Variable P : Provider W.
Variable F : Flags.

(** The tunnel launcher creates nothing. *)
Lemma OpenSecureTunnel_no_create name zone localPort remotePort :
  only (fun e => negb (is_create e))
       (OpenSecureTunnel P F name zone localPort remotePort).
Proof.
  unfold OpenSecureTunnel, openSecureTunnel, GetPublicIPAddress. only_tac.
Qed.

(** With a non-empty address from the resolver, [GetOrCreateInstance] is
    the resolver's answer and nothing more. *)
Lemma GetOrCreateInstance_running fuel w ip err w1 ev :
  GetPublicIPAddress P F (instanceName F) (zone F) w = mkResult (Ret (ip, err)) w1 ev ->
  ip <> "" ->
  GetOrCreateInstance P F fuel w = mkResult (Ret (ip, None)) w1 ev.
Proof.
  intros H Hip. unfold GetOrCreateInstance.
  rewrite (run_bind _ _ _ _ _ _ _ _ H). cbv zeta.
  assert (err = None) as ->.
  { apply (GetPublicIPAddress_address_no_error P F (instanceName F) (zone F) w ip);
      [now rewrite H | exact Hip]. }
  destruct ip as [|c ip]; [congruence|].
  cbn [String.length Nat.ltb Nat.leb].
  unfold prepend. cbn [ret Monad_M M_ret outcome final events].
  now rewrite app_nil_r.
Qed.

(** C6, as the code has it: when the first address query returns a
    non-empty address, [start] sends no disk insert and no instance
    insert, and goes on with the tunnel launcher from the world the query
    left.  The launcher resolves the address again: when that second
    resolution returns an address, [ssh] is run once, towards that
    address, and [start] then blocks; when the second resolution fails, by
    an error or by a panic, no command is run at all. *)
Theorem start_reuses_running_instance fuel w ip err w1 ev :
  GetPublicIPAddress P F (instanceName F) (zone F) w = mkResult (Ret (ip, err)) w1 ev ->
  ip <> "" ->
  let r := start P F fuel w in
  let tunnel := OpenSecureTunnel P F (instanceName F) (zone F)
                  (tunnelPort F) (dockerPort F) w1 in
  count is_create (events r) = 0
  /\ (exists tail,
         events r = ev ++ events tunnel ++ tail
         /\ (tail = [] \/ tail = [Log "failed to create SSH tunnel" []]))
  /\ (forall ip2 w2 ev2,
        GetPublicIPAddress P F (instanceName F) (zone F) w1
          = mkResult (Ret (ip2, None)) w2 ev2 ->
        filter is_spawn (events r)
          = [Run "ssh"
                 (strings_Split
                    (sshCommand (env_HOME F) (env_USER F) ip2 "localhost"
                                (tunnelPort F) (dockerPort F)) " ")]
        /\ outcome r = Stop Blocked)
  /\ (forall ip2 e w2 ev2,
        GetPublicIPAddress P F (instanceName F) (zone F) w1
          = mkResult (Ret (ip2, Some e)) w2 ev2 ->
        filter is_spawn (events r) = []
        /\ outcome r = Stop Fatal
        /\ final r = w2)
  /\ (forall why w2 ev2,
        GetPublicIPAddress P F (instanceName F) (zone F) w1
          = mkResult (Stop why) w2 ev2 ->
        filter is_spawn (events r) = []
        /\ outcome r = Stop why
        /\ final r = w2).
Proof.
  intros H Hip r tunnel. subst r tunnel. unfold start.
  rewrite (run_bind _ _ _ _ _ _ _ _ (GetOrCreateInstance_running fuel _ _ _ _ _ H Hip)).
  assert (Hev : ev = [InstancesGet (projectId F) (zone F) (instanceName F)]).
  { rewrite <- (GetPublicIPAddress_events P F (instanceName F) (zone F) w), H.
    reflexivity. }
  subst ev.
  pose proof (GetPublicIPAddress_events P F (instanceName F) (zone F) w1) as Hev2.
  destruct (GetPublicIPAddress P F (instanceName F) (zone F) w1)
    as [[[ip2 [e2|]]|why2] w2 ev2] eqn:H2; cbn [events] in Hev2; subst ev2.
  - assert (Ht : OpenSecureTunnel P F (instanceName F) (zone F)
                   (tunnelPort F) (dockerPort F) w1
                 = mkResult (Ret (None, Some e2)) w2
                     [InstancesGet (projectId F) (zone F) (instanceName F)]).
    { unfold OpenSecureTunnel, openSecureTunnel.
      rewrite (run_bind _ _ _ _ _ _ _ _ H2). reflexivity. }
    rewrite (run_bind _ _ _ _ _ _ _ _ Ht), Ht.
    unfold log_Fatalf. rewrite run_emit_bind.
    cbn [prepend outcome final events stop app].
    split; [reflexivity|]. split.
    { eexists. split; [reflexivity|]. right. reflexivity. }
    split; [intros ? ? ? E; discriminate E|].
    split; [|intros ? ? ? E; discriminate E].
    intros ip3 e3 w3 ev3 [= _ _ <- _]. repeat split.
  - destruct (exec_Run P "ssh"
                (strings_Split
                   (sshCommand (env_HOME F) (env_USER F) ip2 "localhost"
                      (tunnelPort F) (dockerPort F)) " ") w2)
      as [[proc runerr] w3] eqn:Hx.
    assert (Ht : OpenSecureTunnel P F (instanceName F) (zone F)
                   (tunnelPort F) (dockerPort F) w1
                 = mkResult (Ret (proc, None)) w3
                     [InstancesGet (projectId F) (zone F) (instanceName F);
                      Log "Running %s"
                          [VString (sshCommand (env_HOME F) (env_USER F) ip2
                                      "localhost" (tunnelPort F) (dockerPort F))];
                      Run "ssh"
                          (strings_Split
                             (sshCommand (env_HOME F) (env_USER F) ip2
                                "localhost" (tunnelPort F) (dockerPort F)) " ")]).
    { unfold OpenSecureTunnel, openSecureTunnel, log_Printf.
      rewrite (run_bind _ _ _ _ _ _ _ _ H2). cbv zeta. rewrite run_emit_bind.
      rewrite (run_request_bind _ _ _ _ _ _ _ _ Hx). reflexivity. }
    rewrite (run_bind _ _ _ _ _ _ _ _ Ht), Ht.
    cbn [prepend outcome final events stop app].
    split; [reflexivity|]. split.
    { exists []. split; [reflexivity|]. left. reflexivity. }
    split; [|split; intros ? ? ? ? E || intros ? ? ? E; discriminate E].
    intros ip3 w4 ev3 [= <- _ _]. split; reflexivity.
  - assert (Ht : OpenSecureTunnel P F (instanceName F) (zone F)
                   (tunnelPort F) (dockerPort F) w1
                 = mkResult (Stop why2) w2
                     [InstancesGet (projectId F) (zone F) (instanceName F)]).
    { unfold OpenSecureTunnel, openSecureTunnel.
      now rewrite (run_bind_stop _ _ _ _ _ _ _ _ H2). }
    rewrite (run_bind_stop _ _ _ _ _ _ _ _ Ht), Ht.
    cbn [prepend outcome final events stop app].
    split; [reflexivity|]. split.
    { exists []. split; [reflexivity|]. left. reflexivity. }
    split; [intros ? ? ? E; discriminate E|].
    split; [intros ? ? ? ? E; discriminate E|].
    intros why3 w3 ev3 [= <- <- _]. repeat split.
Qed.

End Orchestrator.

(** A start on a running instance whose address does not change, and one
    whose second lookup is refused, on the scripted world. *)
Lemma start_reuses_running_instance_witness :
  (let w := Script.mkWorld [Script.instance_at "1.2.3.4"; Script.instance_at "1.2.3.4"]
              [] [] [] [] [] [(Some {| Pid := 7 |}, None)] [] in
   let r := start Script.provider Script.flags 5 w in
   count is_create (events r) = 0
   /\ filter is_spawn (events r)
      = [Run "ssh" (strings_Split
                      (sshCommand "/home/u" "u" "1.2.3.4" "localhost" 8001 8000) " ")]
   /\ outcome r = Stop Blocked)
  /\
  (let w := Script.mkWorld [Script.instance_at "1.2.3.4";
                            (None, Some (external "rate limit exceeded"))]
              [] [] [] [] [] [(Some {| Pid := 7 |}, None)] [] in
   let r := start Script.provider Script.flags 5 w in
   count is_create (events r) = 0
   /\ filter is_spawn (events r) = []
   /\ outcome r = Stop Fatal).
Proof.
  split.
  - pose proof (start_reuses_running_instance Script.provider Script.flags 5
                  (Script.mkWorld
                     [Script.instance_at "1.2.3.4"; Script.instance_at "1.2.3.4"]
                     [] [] [] [] [] [(Some {| Pid := 7 |}, None)] [])
                  "1.2.3.4" None _ _ eq_refl ltac:(discriminate))
      as (Hc & _ & Ht & _).
    destruct (Ht _ _ _ eq_refl) as [Hs Ho].
    split; [exact Hc | split; [exact Hs | exact Ho]].
  - pose proof (start_reuses_running_instance Script.provider Script.flags 5
                  (Script.mkWorld
                     [Script.instance_at "1.2.3.4";
                      (None, Some (external "rate limit exceeded"))]
                     [] [] [] [] [] [(Some {| Pid := 7 |}, None)] [])
                  "1.2.3.4" None _ _ eq_refl ltac:(discriminate))
      as (Hc & _ & _ & He & _).
    destruct (He _ _ _ _ eq_refl) as (Hs & Ho & _).
    split; [exact Hc | split; [exact Hs | exact Ho]].
Defined.

(** C6, as the claim has it, fails when the provider's second answer
    differs from the first: [start] drops the address it got from
    [GetOrCreateInstance], the launcher asks again, and [ssh] is run towards
    the address of the second answer. *)
Lemma start_tunnel_to_second_address :
  let w := Script.mkWorld [Script.instance_at "1.2.3.4"; Script.instance_at "5.6.7.8"]
             [] [] [] [] [] [(Some {| Pid := 7 |}, None)] [] in
  let r := start Script.provider Script.flags 5 w in
  outcome (GetPublicIPAddress Script.provider Script.flags
             "docker-instance" "us-central1-a" w) = Ret ("1.2.3.4", None)
  /\ filter is_spawn (events r)
     = [Run "ssh" (strings_Split
                     (sshCommand "/home/u" "u" "5.6.7.8" "localhost" 8001 8000) " ")]
  /\ ~ In (Run "ssh" (strings_Split
                        (sshCommand "/home/u" "u" "1.2.3.4" "localhost" 8001 8000) " "))
          (events r).
Proof.
  vm_compute. split; [reflexivity|]. split; [reflexivity|].
  intros [H|[H|[H|[H|[]]]]]; discriminate H.
Qed.

(** When the second lookup fails no tunnel is launched at all, although the
    first lookup had returned an address. *)
Example start_second_lookup_fails :
  let w := Script.mkWorld [Script.instance_at "1.2.3.4";
                           (None, Some (external "rate limit exceeded"))]
             [] [] [] [] [] [(Some {| Pid := 7 |}, None)] [] in
  let r := start Script.provider Script.flags 5 w in
  outcome r = Stop Fatal /\ count is_spawn (events r) = 0.
Proof. vm_compute. split; reflexivity. Qed.


(** * Further properties of the code *)

(** ** The operation poller *)

Lemma polling_5s_polling e : polling_5s e = true -> polling e = true.
Proof. destruct e; cbn; congruence. Qed.

Section PollerMore.

Context {W : Type}.
Variable P : Provider W.
Variable F : Flags.

Lemma waitForOp_loop_out_of_fuel zone o err w :
  (Operation.Status o =? "DONE") = false ->
  waitForOp_loop P F 0 zone (Some o) err w = mkResult (Stop OutOfFuel) w [].
Proof.
  intros Hs. cbn [waitForOp_loop deref]. rewrite run_ret_bind, Hs. reflexivity.
Qed.

Lemma waitForOp_loop_5s fuel : forall zone op err,
  only polling_5s (waitForOp_loop P F fuel zone op err).
Proof.
  induction fuel; intros zone op err; cbn [waitForOp_loop]; only_tac.
  apply IHfuel.
Qed.

Lemma waitForOp_loop_balance fuel : forall zone op err w,
  count is_fetch (events (waitForOp_loop P F fuel zone op err w))
  = count is_sleep (events (waitForOp_loop P F fuel zone op err w)).
Proof.
  induction fuel; intros zone [o|] err w; try reflexivity.
  - destruct (Operation.Status o =? "DONE") eqn:Hs.
    + apply String.eqb_eq in Hs. now rewrite (waitForOp_loop_done _ _ _ _ _ _ _ Hs).
    + now rewrite (waitForOp_loop_out_of_fuel _ _ _ _ Hs).
  - destruct (Operation.Status o =? "DONE") eqn:Hs.
    + apply String.eqb_eq in Hs. now rewrite (waitForOp_loop_done _ _ _ _ _ _ _ Hs).
    + destruct (ZoneOperations_Get P (projectId F) zone (Operation.Name o) w)
        as [[op1 e1] w1] eqn:H.
      rewrite (waitForOp_loop_fetch _ _ _ _ _ _ _ _ _ _ Hs H).
      unfold prepend, count; cbn [events].
      rewrite !filter_app, !length_app, fetch_log_no_fetch, fetch_log_no_sleep.
      cbn [filter is_fetch is_sleep length app Nat.add]. f_equal.
      destruct op1 as [o1|]; [|reflexivity].
      destruct (recognized (Operation.Status o1)); [|reflexivity].
      apply IHfuel.
Qed.

(** X1: in every run of the wait on a non-nil operation there is one status
    fetch more than there are sleeps, every sleep lasts five seconds, and
    nothing is done but fetching, sleeping, printing and logging. *)
Theorem waitForOp_fetches_and_sleeps fuel o zone w :
  let r := waitForOp P F fuel (Some o) zone w in
  count is_fetch (events r) = S (count is_sleep (events r))
  /\ forallb polling_5s (events r) = true
  /\ filter is_mutation (events r) = [].
Proof.
  intros r. subst r.
  destruct (ZoneOperations_Get P (projectId F) zone (Operation.Name o) w)
    as [[op1 e1] w1] eqn:H.
  rewrite (waitForOp_first _ _ _ _ _ _ _ _ _ H).
  pose proof (waitForOp_loop_5s fuel zone op1 e1 w1) as H5.
  unfold prepend; cbn [events app]. repeat split.
  - unfold count at 1 2. cbn [filter is_fetch is_sleep length]. f_equal.
    apply waitForOp_loop_balance.
  - exact H5.
  - cbn [filter is_mutation]. apply (filter_none polling).
    + apply polling_not_mutation.
    + rewrite forallb_forall in *. intros e He. apply polling_5s_polling. auto.
Qed.

(** X2: when the first fetch already shows DONE the wait returns at once,
    whatever the fuel: no sleep, no second fetch, and the value returned is
    the error that came with that fetch, nil or not. *)
Theorem waitForOp_done_at_first_fetch fuel o zone w o1 e1 w1 :
  ZoneOperations_Get P (projectId F) zone (Operation.Name o) w = ((Some o1, e1), w1) ->
  Operation.Status o1 = "DONE" ->
  waitForOp P F fuel (Some o) zone w
  = mkResult (Ret e1) w1
      [ZoneOperationsGet (projectId F) zone (Operation.Name o); Print (String "010" "")].
Proof.
  intros H Hs. rewrite (waitForOp_first _ _ _ _ _ _ _ _ _ H).
  now rewrite (waitForOp_loop_done _ _ _ _ _ _ _ Hs).
Qed.

Lemma waitForOp_loop_never_done fuel zone :
  (forall name w, exists o w',
      ZoneOperations_Get P (projectId F) zone name w = ((Some o, None), w')
      /\ (Operation.Status o = "PENDING" \/ Operation.Status o = "RUNNING")) ->
  forall o err w,
    (Operation.Status o = "PENDING" \/ Operation.Status o = "RUNNING") ->
    outcome (waitForOp_loop P F fuel zone (Some o) err w) = Stop OutOfFuel
    /\ count is_sleep (events (waitForOp_loop P F fuel zone (Some o) err w)) = fuel.
Proof.
  intros Hp. induction fuel as [|fuel IH]; intros o err w Ho.
  - rewrite waitForOp_loop_out_of_fuel; [split; reflexivity|].
    destruct Ho as [-> | ->]; reflexivity.
  - destruct (Hp (Operation.Name o) w) as (o1 & w1 & H & Ho1).
    rewrite (waitForOp_loop_fetch _ _ _ _ _ _ _ _ _ _
               ltac:(destruct Ho as [-> | ->]; reflexivity) H).
    assert (recognized (Operation.Status o1) = true) as ->
        by (destruct Ho1 as [-> | ->]; reflexivity).
    destruct (IH o1 None w1 Ho1) as [IHo IHc].
    unfold prepend; cbn [outcome events fetch_log app]. split; [exact IHo|].
    unfold count in *. cbn [filter is_sleep length]. now rewrite IHc.
Qed.

(** X3: the wait has no bound of its own.  Against a provider whose
    operations stay PENDING or RUNNING, it never returns: however many
    iterations it is given, it uses them all, sleeping once in each. *)
Theorem waitForOp_unbounded zone :
  (forall name w, exists o w',
      ZoneOperations_Get P (projectId F) zone name w = ((Some o, None), w')
      /\ (Operation.Status o = "PENDING" \/ Operation.Status o = "RUNNING")) ->
  forall fuel o w,
    let r := waitForOp P F fuel (Some o) zone w in
    outcome r = Stop OutOfFuel
    /\ count is_sleep (events r) = fuel
    /\ count is_fetch (events r) = S fuel.
Proof.
  intros Hp fuel o w r. subst r.
  destruct (Hp (Operation.Name o) w) as (o1 & w1 & H & Ho1).
  rewrite (waitForOp_first _ _ _ _ _ _ _ _ _ H).
  destruct (waitForOp_loop_never_done fuel zone Hp o1 None w1 Ho1) as [Ho Hc].
  pose proof (waitForOp_loop_balance fuel zone (Some o1) None w1) as Hb.
  unfold prepend; cbn [outcome events app]. split; [exact Ho|].
  unfold count in *. cbn [filter is_sleep is_fetch length].
  split; [exact Hc | now rewrite Hb, Hc].
Qed.

(** *** More fuel changes nothing once the loop has ended *)

Lemma settles_refl A (m : M W A) : settles m m.
Proof. intros w _. reflexivity. Qed.

Lemma settles_bind A B (m m' : M W A) (k k' : A -> M W B) :
  settles m m' -> (forall a, settles (k a) (k' a)) ->
  settles (bind m k) (bind m' k').
Proof.
  intros Hm Hk w. cbn. unfold M_bind.
  specialize (Hm w). destruct (m w) as [[a|why] w1 ev1]; cbn [outcome] in *.
  - rewrite Hm by discriminate.
    specialize (Hk a w1). destruct (k a w1) as [o w2 ev2]; cbn [outcome] in *.
    intros Ho. now rewrite (Hk Ho).
  - intros Ho. rewrite Hm; [reflexivity|].
    intros [= ->]. now apply Ho.
Qed.

Lemma waitForOp_loop_settles n : forall m zone op err,
  n <= m -> settles (waitForOp_loop P F n zone op err) (waitForOp_loop P F m zone op err).
Proof.
  induction n as [|n IH]; intros m zone op err Hnm.
  - intros w. destruct op as [o|]; [|destruct m; intros _; reflexivity].
    destruct (Operation.Status o =? "DONE") eqn:Hs.
    + apply String.eqb_eq in Hs. intros _.
      now rewrite !(waitForOp_loop_done _ _ _ _ _ _ _ Hs).
    + rewrite (waitForOp_loop_out_of_fuel _ _ _ _ Hs). cbn. congruence.
  - destruct m as [|m]; [lia|]. apply le_S_n in Hnm.
    cbn [waitForOp_loop].
    apply settles_bind; [apply settles_refl|]. intros o.
    destruct (negb (Operation.Status o =? "DONE")); [|apply settles_refl].
    apply settles_bind; [apply settles_refl|]. intros _.
    apply settles_bind; [apply settles_refl|]. intros _.
    apply settles_bind; [apply settles_refl|]. intros [op' err'].
    apply settles_bind; [apply settles_refl|]. intros _.
    apply settles_bind; [apply settles_refl|]. intros o'.
    match goal with |- settles (if ?b then _ else _) _ => destruct b end;
      [apply settles_refl | now apply IH].
Qed.

Lemma waitForOp_settles n m op zone :
  n <= m -> settles (waitForOp P F n op zone) (waitForOp P F m op zone).
Proof.
  intros Hnm. unfold waitForOp.
  apply settles_bind; [apply settles_refl|]. intros o.
  apply settles_bind; [apply settles_refl|]. intros [op' err'].
  now apply waitForOp_loop_settles.
Qed.

(** The fuel is adequate as a bound: a wait that ends within [n] iterations
    of the loop (by returning or by a panic) does exactly the same, events
    and final world included, when it is allowed more. *)
Lemma waitForOp_more_fuel n m op zone w :
  n <= m ->
  outcome (waitForOp P F n op zone w) <> Stop OutOfFuel ->
  waitForOp P F m op zone w = waitForOp P F n op zone w.
Proof. intros Hnm. now apply waitForOp_settles. Qed.

(** X5: inside the loop an unrecognized status ends the wait at once.  When
    the first fetch shows a status other than DONE and the second fetch
    shows a status outside PENDING, RUNNING and DONE, the wait returns the
    error built from that operation after two fetches and one sleep; the
    world is the one the second fetch left. *)
Theorem waitForOp_unrecognized_on_refetch fuel o zone w o1 e1 w1 o2 e2 w2 :
  ZoneOperations_Get P (projectId F) zone (Operation.Name o) w = ((Some o1, e1), w1) ->
  (Operation.Status o1 =? "DONE") = false ->
  ZoneOperations_Get P (projectId F) zone (Operation.Name o1) w1 = ((Some o2, e2), w2) ->
  recognized (Operation.Status o2) = false ->
  let r := waitForOp P F (S fuel) (Some o) zone w in
  outcome r = Ret (Some (errors_New "Bad operation: %s" o2))
  /\ final r = w2
  /\ count is_fetch (events r) = 2
  /\ count is_sleep (events r) = 1.
Proof.
  intros H1 Hs H2 Hr r. subst r.
  rewrite (waitForOp_first _ _ _ _ _ _ _ _ _ H1).
  rewrite (waitForOp_loop_unrecognized _ _ _ _ _ _ _ _ _ _ Hs H2 Hr).
  unfold prepend, count; cbn [outcome final events app].
  repeat split; cbn [filter is_fetch is_sleep];
    rewrite filter_app, ?fetch_log_no_fetch, ?fetch_log_no_sleep; reflexivity.
Qed.

End PollerMore.

(** ** The address resolver and the tunnel launcher *)

Lemma string_app_assoc (a b c : string) : ((a ++ b) ++ c = a ++ (b ++ c))%string.
Proof. induction a as [|x a IH]; cbn; [reflexivity | now rewrite IH]. Qed.

Lemma spaces_app (a b : string) : spaces (a ++ b) = spaces a + spaces b.
Proof.
  induction a as [|x a IH]; cbn [spaces String.append]; [reflexivity|].
  rewrite IH. lia.
Qed.

Lemma strings_Split_nonempty s sep : strings_Split s sep <> [].
Proof.
  destruct s as [|c s]; cbn; [discriminate|].
  destruct (Ascii.eqb c sep); [discriminate|].
  destruct (strings_Split s sep); discriminate.
Qed.

Lemma strings_Split_length s : List.length (strings_Split s " ") = S (spaces s).
Proof.
  induction s as [|c s IH]; cbn [strings_Split spaces]; [reflexivity|].
  destruct (Ascii.eqb c " "); cbn [length]; [now rewrite IH|].
  destruct (strings_Split s " ") eqn:E; cbn [length] in *; lia.
Qed.

Lemma strings_Split_word s : spaces s = 0 -> strings_Split s " " = [s].
Proof.
  induction s as [|c s IH]; cbn [strings_Split spaces]; [reflexivity|].
  destruct (Ascii.eqb c " "); [discriminate|]. cbn [Nat.add].
  intros H. now rewrite (IH H).
Qed.

Lemma strings_Split_app a b :
  strings_Split (a ++ String " " b) " " = strings_Split a " " ++ strings_Split b " ".
Proof.
  induction a as [|c a IH]; cbn [strings_Split String.append]; [reflexivity|].
  destruct (Ascii.eqb c " "); [now rewrite IH|].
  rewrite IH. pose proof (strings_Split_nonempty a " ") as Hn.
  destruct (strings_Split a " "); [congruence | reflexivity].
Qed.

Lemma strings_Split_words w ws :
  Forall (fun x => spaces x = 0) (w :: ws) ->
  strings_Split (String.concat " " (w :: ws)) " " = w :: ws.
Proof.
  revert w. induction ws as [|v ws IH]; intros w H.
  - cbn [String.concat]. apply strings_Split_word. now inversion H.
  - change (String.concat " " (w :: v :: ws))
      with (w ++ String " " (String.concat " " (v :: ws)))%string.
    inversion H as [|? ? Hw Hrest]; subst.
    rewrite strings_Split_app, (strings_Split_word w Hw), (IH v Hrest). reflexivity.
Qed.

Lemma spaces_uint d : spaces (NilEmpty.string_of_uint d) = 0.
Proof. induction d; cbn; assumption || reflexivity. Qed.

Lemma spaces_fmt_d z : spaces (fmt_d z) = 0.
Proof.
  unfold fmt_d. destruct (Z.to_int z) as [d|d]; cbn [NilZero.string_of_int].
  - unfold NilZero.string_of_uint. destruct d; try reflexivity; apply spaces_uint.
  - cbn [spaces]. unfold NilZero.string_of_uint.
    destruct d; try reflexivity; apply spaces_uint.
Qed.

(** X8: [ssh] receives eighteen arguments plus one for every space in the
    home directory, the user name, the address and the forwarded host
    name: the command line is built as one string and cut at every space. *)
Theorem sshCommand_argument_count homedir username ip hostname localPort remotePort :
  List.length (strings_Split
                 (sshCommand homedir username ip hostname localPort remotePort) " ")
  = 18 + spaces homedir + spaces username + spaces ip + spaces hostname.
Proof.
  rewrite strings_Split_length. unfold sshCommand.
  rewrite !spaces_app, !spaces_fmt_d. cbn [spaces Ascii.eqb Bool.eqb Nat.add].
  lia.
Qed.

(** X9: when the home directory, the user name, the address and the host
    name hold no space, the arguments of [ssh] are the four options, the
    identity file under the home directory, port 22, [user@address], and the
    forward [-L localPort:hostname:remotePort] in background mode without a
    remote command. *)
Theorem sshCommand_arguments homedir username ip hostname localPort remotePort :
  spaces homedir = 0 -> spaces username = 0 -> spaces ip = 0 -> spaces hostname = 0 ->
  strings_Split (sshCommand homedir username ip hostname localPort remotePort) " "
  = [ "-o"; "LogLevel=quiet"; "-o"; "UserKnownHostsFile=/dev/null";
      "-o"; "CheckHostIP=no"; "-o"; "StrictHostKeyChecking=no";
      "-i"; homedir ++ "/.ssh/google_compute_engine";
      "-A"; "-p"; "22"; username ++ "@" ++ ip;
      "-f"; "-N"; "-L";
      fmt_d localPort ++ ":" ++ hostname ++ ":" ++ fmt_d remotePort ]%string.
Proof.
  intros Hh Hu Hi Hn.
  rewrite <- strings_Split_words.
  - f_equal. unfold sshCommand. cbn [String.concat String.append].
    rewrite !string_app_assoc. cbn [String.append]. reflexivity.
  - repeat constructor; rewrite ?spaces_app, ?spaces_fmt_d, ?Hh, ?Hu, ?Hi, ?Hn;
      reflexivity.
Qed.

Section ResolverMore.

Context {W : Type}.
Variable P : Provider W.
Variable F : Flags.

(** X6: after a lookup without error the resolver returns if and only if
    the instance pointer, its first network interface and that interface's
    first access configuration are all there; it then returns that
    configuration's address.  In every other case it panics, on a nil
    pointer or on an index out of range. *)
Theorem GetPublicIPAddress_returns_iff name zone w i w1 :
  Instances_Get P (projectId F) zone name w = ((i, None), w1) ->
  let r := GetPublicIPAddress P F name zone w in
  match first_config i with
  | Some ac => outcome r = Ret (AccessConfig.NatIP ac, None)
  | None => outcome r = Stop nil_dereference \/ outcome r = Stop index_out_of_range
  end
  /\ ((exists v, outcome r = Ret v) <-> first_config i <> None).
Proof.
  intros H r. subst r. unfold GetPublicIPAddress.
  rewrite (run_request_bind _ _ _ _ _ _ _ _ H).
  assert (Hc : match first_config i with
               | Some ac =>
                   outcome (prepend [InstancesGet (projectId F) zone name]
                              ((i0 <- deref i ;;
                                ni <- index (Instance.NetworkInterfaces i0) 0 ;;
                                ni0 <- deref ni ;;
                                ac0 <- index (NetworkInterface.AccessConfigs ni0) 0 ;;
                                ac1 <- deref ac0 ;;
                                ret (AccessConfig.NatIP ac1, @None error)) w1))
                   = Ret (AccessConfig.NatIP ac, None)
               | None =>
                   outcome (prepend [InstancesGet (projectId F) zone name]
                              ((i0 <- deref i ;;
                                ni <- index (Instance.NetworkInterfaces i0) 0 ;;
                                ni0 <- deref ni ;;
                                ac0 <- index (NetworkInterface.AccessConfigs ni0) 0 ;;
                                ac1 <- deref ac0 ;;
                                ret (AccessConfig.NatIP ac1, @None error)) w1))
                   = Stop nil_dereference
                   \/ outcome (prepend [InstancesGet (projectId F) zone name]
                              ((i0 <- deref i ;;
                                ni <- index (Instance.NetworkInterfaces i0) 0 ;;
                                ni0 <- deref ni ;;
                                ac0 <- index (NetworkInterface.AccessConfigs ni0) 0 ;;
                                ac1 <- deref ac0 ;;
                                ret (AccessConfig.NatIP ac1, @None error)) w1))
                      = Stop index_out_of_range
               end).
  { destruct i as [inst|]; [|left; reflexivity].
    unfold first_config. cbn [deref]. rewrite run_ret_bind. unfold index.
    destruct (Instance.NetworkInterfaces inst) as [|[ni|] nis]; cbn [nth_error].
    - right; reflexivity.
    - rewrite run_ret_bind. cbn [deref]. rewrite run_ret_bind.
      destruct (NetworkInterface.AccessConfigs ni) as [|[ac|] acs]; cbn [nth_error].
      + right; reflexivity.
      + reflexivity.
      + left; reflexivity.
    - left; reflexivity. }
  split; [exact Hc|].
  destruct (first_config i) as [ac|].
  - split; [discriminate | intros _; eexists; exact Hc].
  - split; [|congruence].
    intros [v Hv]. destruct Hc as [Hc|Hc]; rewrite Hc in Hv; discriminate.
Qed.

(** X7: the tunnel launcher reads and never writes.  Its only request to
    the compute API is one instance lookup, in every run; it runs at most
    one command, and that command is [ssh]. *)
Theorem OpenSecureTunnel_read_only name zone localPort remotePort w :
  let r := OpenSecureTunnel P F name zone localPort remotePort w in
  filter is_api_request (events r) = [InstancesGet (projectId F) zone name]
  /\ filter is_mutation (events r) = []
  /\ (filter is_spawn (events r) = []
      \/ exists args, filter is_spawn (events r) = [Run "ssh" args]).
Proof.
  intros r. subst r. unfold OpenSecureTunnel, openSecureTunnel, log_Printf.
  pose proof (GetPublicIPAddress_events P F name zone w) as Hev.
  destruct (GetPublicIPAddress P F name zone w) as [[[ip [e|]]|why] w1 ev] eqn:H;
    cbn [events] in Hev; subst ev.
  - rewrite (run_bind _ _ _ _ _ _ _ _ H). repeat split. left. reflexivity.
  - rewrite (run_bind _ _ _ _ _ _ _ _ H). cbv zeta. rewrite run_emit_bind.
    destruct (exec_Run P "ssh"
                (strings_Split
                   (sshCommand (env_HOME F) (env_USER F) ip "localhost"
                      localPort remotePort) " ") w1) as [[proc runerr] w2] eqn:Hx.
    rewrite (run_request_bind _ _ _ _ _ _ _ _ Hx).
    repeat split. right. eexists. reflexivity.
  - rewrite (run_bind_stop _ _ _ _ _ _ _ _ H). repeat split. left. reflexivity.
Qed.

End ResolverMore.

(** ** The disk manager and the instance manager *)

Lemma polling_api_requests l :
  forallb polling l = true -> forallb is_fetch (filter is_api_request l) = true.
Proof.
  induction l as [|e l IH]; cbn [forallb filter]; [reflexivity|].
  intros H. apply andb_prop in H as [He Hl].
  destruct e; cbn in He |- *; try discriminate; auto.
Qed.

Section ManagersMore.

Context {W : Type}.
Variable P : Provider W.
Variable F : Flags.

(** The lookup came back without an error and without a disk. *)
Lemma getOrCreateRootDisk_nil_disk fuel name zone w w1 :
  Disks_Get P (projectId F) zone (diskName F) w = ((None, None), w1) ->
  getOrCreateRootDisk P F fuel name zone w
  = mkResult (Stop nil_dereference) w1
      [Log "try getting root disk: %q" [VString name];
       DisksGet (projectId F) zone (diskName F)].
Proof.
  intros H. unfold getOrCreateRootDisk, log_Printf.
  rewrite run_emit_bind, (run_request_bind _ _ _ _ _ _ _ _ H).
  cbn [deref]. now rewrite (run_bind_stop _ _ _ _ _ nil_dereference w1 []).
Qed.

(** X10: the [name] handed to the disk manager only shows in its log
    lines.  The lookup and the insert name the disk by the flag, so two
    calls that differ in [name] alone end the same way, leave the same
    world and send the same requests. *)
Theorem getOrCreateRootDisk_name_unused fuel name name' zone w :
  let r := getOrCreateRootDisk P F fuel name zone w in
  let r' := getOrCreateRootDisk P F fuel name' zone w in
  outcome r = outcome r'
  /\ final r = final r'
  /\ filter (fun e => negb (is_log e)) (events r)
     = filter (fun e => negb (is_log e)) (events r').
Proof.
  intros r r'. subst r r'.
  destruct (Disks_Get P (projectId F) zone (diskName F) w) as [[d [e|]] w1] eqn:H.
  - destruct (Disks_Insert P (projectId F) zone (newDisk F) (image F) w1)
      as [[op e2] w2] eqn:Hi.
    rewrite (getOrCreateRootDisk_missing _ _ fuel name _ _ _ _ _ _ _ _ H Hi).
    rewrite (getOrCreateRootDisk_missing _ _ fuel name' _ _ _ _ _ _ _ _ H Hi).
    unfold prepend; cbn [outcome final events]. repeat split.
  - destruct d as [d|].
    + rewrite !(getOrCreateRootDisk_found _ _ _ _ _ _ _ _ H). repeat split.
    + rewrite !(getOrCreateRootDisk_nil_disk _ _ _ _ _ H). repeat split.
Qed.

(** X11: the requests of the disk manager follow one pattern in every run:
    first the lookup of the disk named by the flag; then nothing, or one
    insert of that disk from the configured image followed by status
    fetches only. *)
Theorem getOrCreateRootDisk_requests fuel name zone w :
  let r := getOrCreateRootDisk P F fuel name zone w in
  exists rest,
    filter is_api_request (events r)
    = DisksGet (projectId F) zone (diskName F) :: rest
    /\ (rest = []
        \/ exists fetches,
            rest = DisksInsert (projectId F) zone (newDisk F) (image F) :: fetches
            /\ forallb is_fetch fetches = true).
Proof.
  intros r. subst r.
  destruct (Disks_Get P (projectId F) zone (diskName F) w) as [[d [e|]] w1] eqn:H.
  - destruct (Disks_Insert P (projectId F) zone (newDisk F) (image F) w1)
      as [[op e2] w2] eqn:Hi.
    rewrite (getOrCreateRootDisk_missing _ _ fuel name _ _ _ _ _ _ _ _ H Hi).
    pose proof (waitForOp_polling P F fuel op zone w2) as Hp.
    apply polling_api_requests in Hp.
    unfold prepend; cbn [events app filter is_api_request].
    eexists. split; [reflexivity|]. right. eexists. split; [reflexivity|].
    destruct e2 as [e2|]; [reflexivity|].
    destruct (waitForOp P F fuel op zone w2) as [[[e3|]|why] w3 ev3];
      cbn [events] in Hp |- *.
    + rewrite filter_app. cbn [filter is_api_request]. now rewrite app_nil_r.
    + destruct op; cbn [events]; [|exact Hp].
      rewrite filter_app. cbn [filter is_api_request]. now rewrite app_nil_r.
    + exact Hp.
  - exists []. split; [|left; reflexivity].
    destruct d as [d|].
    + now rewrite (getOrCreateRootDisk_found _ _ _ _ _ _ _ _ H).
    + now rewrite (getOrCreateRootDisk_nil_disk _ _ _ _ _ H).
Qed.

(** Once the disk manager has returned a reference, [CreateInstance] sends
    the insert of the descriptor built on it; what follows depends on the
    answer and on the wait. *)
Lemma CreateInstance_with_disk fuel name zone w disk w1 ev op e2 w2 :
  getOrCreateRootDisk P F fuel (diskName F) zone w = mkResult (Ret (disk, None)) w1 ev ->
  Instances_Insert P (projectId F) zone (newInstance F name disk) w1 = ((op, e2), w2) ->
  CreateInstance P F fuel name zone w
  = prepend (ev ++ [Log "starting instance: %q" [VString name];
                    InstancesInsert (projectId F) zone (newInstance F name disk)])
      (match e2 with
       | Some _ =>
           mkResult (Ret ("", e2)) w2
             [Log "instance insert api call failed: %v" [VError e2]]
       | None =>
           match waitForOp P F fuel op zone w2 with
           | mkResult (Ret (Some e3)) w3 ev3 =>
               mkResult (Ret ("", Some e3)) w3
                 (ev3 ++ [Log "instance insert operation failed: %v" [VError (Some e3)]])
           | mkResult (Ret None) w3 ev3 =>
               mkResult (Ret ("", None)) w3
                 (ev3 ++ [Sleep (60 * Second); Log "instance started: %q" [VString ""]])
           | mkResult (Stop why) w3 ev3 => mkResult (Stop why) w3 ev3
           end
       end).
Proof.
  intros H1 H2. unfold CreateInstance, log_Printf, time_Sleep.
  rewrite (run_bind _ _ _ _ _ _ _ _ H1). cbv zeta. rewrite run_emit_bind.
  rewrite (run_request_bind _ _ _ _ _ _ _ _ H2).
  rewrite !prepend_prepend. f_equal; [now rewrite <- app_assoc|].
  destruct e2 as [e2|]; [now rewrite run_emit_bind|].
  destruct (waitForOp P F fuel op zone w2) as [[[e3|]|why] w3 ev3] eqn:H3.
  - now rewrite (run_bind _ _ _ _ _ _ _ _ H3), run_emit_bind.
  - rewrite (run_bind _ _ _ _ _ _ _ _ H3), run_emit_bind.
    rewrite (run_bind _ _ _ _ _ _ _ _ (firstNatIP_newInstance F name disk w3)).
    rewrite run_emit_bind.
    rewrite (run_bind _ _ _ _ _ _ _ _ (firstNatIP_newInstance F name disk w3)).
    reflexivity.
  - now rewrite (run_bind_stop _ _ _ _ _ _ _ _ H3).
Qed.

(** X12: the disk comes first and is what the instance boots from.  When
    the disk manager returns a reference, [CreateInstance] sends exactly one
    instance insert, right after the disk manager's events; the descriptor
    carries the requested name, that reference as the source of its
    read-write persistent boot disk, and the startup script. *)
Theorem CreateInstance_boots_from_root_disk fuel name zone w disk w1 ev :
  getOrCreateRootDisk P F fuel (diskName F) zone w = mkResult (Ret (disk, None)) w1 ev ->
  let r := CreateInstance P F fuel name zone w in
  exists descriptor rest,
    events r = ev ++ [Log "starting instance: %q" [VString name];
                      InstancesInsert (projectId F) zone descriptor] ++ rest
    /\ count is_instance_insert (events r) = 1
    /\ Instance.Name descriptor = name
    /\ Instance.Disks descriptor
       = [Some {| AttachedDisk.Boot := true; AttachedDisk.Type_ := "PERSISTENT";
                  AttachedDisk.Mode := "READ_WRITE"; AttachedDisk.Source := disk |}]
    /\ Instance.Metadata descriptor
       = Some {| Metadata.Items :=
                   [Some {| MetadataItems.Key := "startup-script";
                            MetadataItems.Value := startup |}] |}.
Proof.
  intros H r. subst r.
  destruct (Instances_Insert P (projectId F) zone (newInstance F name disk) w1)
    as [[op e2] w2] eqn:H2.
  rewrite (CreateInstance_with_disk _ _ _ _ _ _ _ _ _ _ H H2).
  pose proof (getOrCreateRootDisk_no_instance_insert P F fuel (diskName F) zone w) as Hn.
  rewrite H in Hn. cbn [events] in Hn. apply negb_filter in Hn.
  pose proof (waitForOp_polling P F fuel op zone w2) as Hp.
  apply (filter_none _ _ _ polling_not_instance_insert) in Hp.
  exists (newInstance F name disk).
  unfold prepend, count; cbn [events].
  eexists. split; [rewrite <- app_assoc; reflexivity|].
  split; [|repeat split].
  rewrite !filter_app, Hn. cbn [filter is_instance_insert app length]. f_equal.
  destruct e2 as [e2|]; [reflexivity|].
  destruct (waitForOp P F fuel op zone w2) as [[[e3|]|why] w3 ev3];
    cbn [events] in Hp |- *; rewrite ?filter_app, Hp; reflexivity.
Qed.

Lemma getOrCreateRootDisk_short_sleeps fuel name zone :
  only short_sleep (getOrCreateRootDisk P F fuel name zone).
Proof.
  unfold getOrCreateRootDisk.
  only_with
    ltac:(idtac;
          match goal with
          | |- only _ (waitForOp _ _ _ _ _) =>
              apply (only_weaken polling_5s);
              [ intros [] ?; cbn in *; congruence
              | unfold waitForOp; only_tac; apply waitForOp_loop_5s ]
          end).
Qed.

(** X13: the sixty seconds for the runtime to come up are slept when the
    creation succeeds and only then.  A successful creation ends with that
    sleep and with the log line of the (empty) address; a creation that
    returns an error has slept no more than the poller's five seconds at a
    time. *)
Theorem CreateInstance_readiness_sleep fuel name zone w ip err :
  let r := CreateInstance P F fuel name zone w in
  outcome r = Ret (ip, err) ->
  match err with
  | None =>
      exists before,
        events r = before ++ [Sleep (60 * Second);
                              Log "instance started: %q" [VString ""]]
        /\ forallb short_sleep before = true
  | Some _ => forallb short_sleep (events r) = true
  end.
Proof.
  intros r. subst r.
  pose proof (getOrCreateRootDisk_short_sleeps fuel (diskName F) zone w) as Hd.
  destruct (getOrCreateRootDisk P F fuel (diskName F) zone w)
    as [[[disk [e|]]|why] w1 ev1] eqn:H1; cbn [events] in Hd.
  - unfold CreateInstance, log_Printf.
    rewrite (run_bind _ _ _ _ _ _ _ _ H1), run_emit_bind.
    cbn [prepend outcome events]. intros [= <- <-].
    rewrite forallb_app, Hd. reflexivity.
  - destruct (Instances_Insert P (projectId F) zone (newInstance F name disk) w1)
      as [[op e2] w2] eqn:H2.
    rewrite (CreateInstance_with_disk _ _ _ _ _ _ _ _ _ _ H1 H2).
    assert (Hw : forallb short_sleep (events (waitForOp P F fuel op zone w2)) = true).
    { apply (only_weaken polling_5s); [intros [] ?; cbn in *; congruence|].
      unfold waitForOp; only_tac; apply waitForOp_loop_5s. }
    destruct e2 as [e2|].
    + cbn [prepend outcome events]. intros [= <- <-].
      rewrite !forallb_app, Hd. reflexivity.
    + destruct (waitForOp P F fuel op zone w2) as [[[e3|]|why] w3 ev3];
        cbn [events] in Hw; cbn [prepend outcome events].
      * intros [= <- <-]. rewrite !forallb_app, Hd, Hw. reflexivity.
      * intros [= <- <-].
        exists ((ev1 ++ [Log "starting instance: %q" [VString name];
                         InstancesInsert (projectId F) zone (newInstance F name disk)])
                ++ ev3).
        split; [now rewrite <- !app_assoc|].
        rewrite !forallb_app, Hd, Hw. reflexivity.
      * discriminate.
  - unfold CreateInstance. rewrite (run_bind_stop _ _ _ _ _ _ _ _ H1). discriminate.
Qed.

(** X15: the line "instance deleted" is logged whenever the wait returns,
    also when it returns an error: the error is then handed to the caller
    after the line has been written. *)
Theorem DeleteInstance_logs_deleted_on_error fuel name zone w op w1 e w2 ev2 :
  Instances_Delete P (projectId F) zone name w = ((op, None), w1) ->
  waitForOp P F fuel op zone w1 = mkResult (Ret (Some e)) w2 ev2 ->
  DeleteInstance P F fuel name zone w
  = mkResult (Ret (Some e)) w2
      ([Log "deleting instance" []; InstancesDelete (projectId F) zone name]
       ++ ev2 ++ [Log "instance deleted" []]).
Proof.
  intros H Hw. unfold DeleteInstance, log_Printf.
  rewrite run_emit_bind, (run_request_bind _ _ _ _ _ _ _ _ H).
  rewrite (run_bind _ _ _ _ _ _ _ _ Hw), run_emit_bind. reflexivity.
Qed.

End ManagersMore.

(** ** The orchestrator *)

Section Counting.

Context {W : Type}.

Lemma atmost_only n p A (m : M W A) :
  only (fun e => negb (p e)) m -> atmost n p m.
Proof.
  intros H w. unfold count. rewrite (negb_filter p _ (H w)). cbn. lia.
Qed.

Lemma atmost_bind_l n p A B (m : M W A) (k : A -> M W B) :
  only (fun e => negb (p e)) m -> (forall a, atmost n p (k a)) ->
  atmost n p (bind m k).
Proof.
  intros Hm Hk w. cbn. unfold M_bind.
  specialize (Hm w). apply negb_filter in Hm.
  destruct (m w) as [[a|why] w1 ev1]; cbn [events] in *.
  - specialize (Hk a w1). destruct (k a w1) as [o w2 ev2]; cbn [events] in *.
    unfold count in *. rewrite filter_app, Hm. exact Hk.
  - unfold count. rewrite Hm. cbn. lia.
Qed.

Lemma atmost_bind_r n p A B (m : M W A) (k : A -> M W B) :
  atmost n p m -> (forall a, only (fun e => negb (p e)) (k a)) ->
  atmost n p (bind m k).
Proof.
  intros Hm Hk w. cbn. unfold M_bind.
  specialize (Hm w).
  destruct (m w) as [[a|why] w1 ev1]; cbn [events] in *; [|exact Hm].
  specialize (Hk a w1). apply negb_filter in Hk.
  destruct (k a w1) as [o w2 ev2]; cbn [events] in *.
  unfold count in *. now rewrite filter_app, Hk, app_nil_r.
Qed.

Lemma atmost_request p R e (f : W -> R * W) : atmost 1 p (request e f).
Proof.
  intros w. unfold request. destruct (f w). unfold count. cbn.
  destruct (p e); cbn; lia.
Qed.

End Counting.

(** The call of [gcloudTransport] performs credential steps only. *)
Lemma gcloudTransport_call_only {W} (P : Provider W) (F : Flags) (p : Event -> bool) :
  (forall step, p (Credential step) = true) -> only p (gcloudTransport_call P F).
Proof.
  intros Hp w. unfold gcloudTransport_call.
  destruct (credentials P w) as [host w1].
  destruct (Credentials.gcloudTransport host (gcloudCredentialsPath F))
    as [result steps].
  cbn [events]. induction steps as [|step steps IH]; cbn [map forallb];
    [reflexivity | now rewrite Hp, IH].
Qed.

Ltac wait_case :=
  idtac;
  match goal with
  | |- only _ (waitForOp _ _ _ _ _) =>
      apply (only_weaken polling);
      [ intros [] ?; cbn in *; congruence | apply waitForOp_polling ]
  | |- only _ (gcloudTransport_call _ _) =>
      apply gcloudTransport_call_only; intros ?; reflexivity
  end.

Ltac never_tac := only_with ltac:(first [ wait_case | progress cbv zeta ]).

Ltac atmost_step :=
  first
    [ apply atmost_only; solve [never_tac]
    | apply atmost_request
    | apply atmost_bind_l; [ solve [never_tac] | intros ]
    | apply atmost_bind_r; [ | intros; solve [never_tac] ]
    | match goal with
      | |- atmost _ _ (match ?x with _ => _ end) => destruct x
      | |- atmost _ _ (if ?b then _ else _) => destruct b
      end
    | progress cbv zeta ].

Ltac atmost_tac := repeat atmost_step.

Ltac settles_step :=
  first
    [ apply settles_refl
    | apply waitForOp_settles; assumption
    | apply settles_bind; [ | intros ]
    | match goal with
      | |- settles (match ?x with _ => _ end) _ => destruct x
      | |- settles (if ?b then _ else _) _ => destruct b
      end
    | progress cbv zeta ].

Ltac settles_tac := repeat settles_step.

Section Stopping.

Context {W : Type}.

Lemma stops_ret allowed A (a : A) : stops_within allowed (ret a : M W A).
Proof. intro w; exact I. Qed.

Lemma stops_stop (allowed : Abort -> bool) A why :
  allowed why = true -> stops_within allowed (stop why : M W A).
Proof. intros H w; exact H. Qed.

Lemma stops_emit allowed e : stops_within allowed (emit e : M W unit).
Proof. intro w; exact I. Qed.

Lemma stops_request allowed R e (f : W -> R * W) : stops_within allowed (request e f).
Proof. intro w. unfold request. destruct (f w). exact I. Qed.

Lemma stops_deref (allowed : Abort -> bool) A (o : option A) :
  allowed nil_dereference = true -> stops_within allowed (deref o : M W A).
Proof. intros H. destruct o; intro w; [exact I | exact H]. Qed.

Lemma stops_index (allowed : Abort -> bool) A (l : list A) i :
  allowed index_out_of_range = true -> stops_within allowed (index l i : M W A).
Proof. intros H. unfold index. destruct (nth_error l i); intro w; [exact I | exact H]. Qed.

Lemma stops_bind allowed A B (m : M W A) (k : A -> M W B) :
  stops_within allowed m -> (forall a, stops_within allowed (k a)) ->
  stops_within allowed (bind m k).
Proof.
  intros Hm Hk w. cbn. unfold M_bind.
  specialize (Hm w). destruct (m w) as [[a|why] w1 ev1]; cbn [outcome] in *.
  - specialize (Hk a w1). destruct (k a w1) as [o w2 ev2]; exact Hk.
  - exact Hm.
Qed.

End Stopping.

Ltac stops_step :=
  first
    [ apply stops_ret | apply stops_emit | apply stops_request
    | apply stops_stop; reflexivity
    | apply stops_deref; reflexivity | apply stops_index; reflexivity
    | apply stops_bind; [ | intros ]
    | match goal with
      | |- stops_within _ (match ?x with _ => _ end) => destruct x
      | |- stops_within _ (if ?b then _ else _) => destruct b
      end
    | progress unfold log_Printf, fmt_Print, time_Sleep ].

Ltac stops_with tac := repeat first [ tac | stops_step ].

Section OrchestratorMore.

Context {W : Type}.
Variable P : Provider W.
Variable F : Flags.

Lemma waitForOp_loop_panics_only fuel : forall zone op err,
  stops_within panics_only (waitForOp_loop P F fuel zone op err).
Proof.
  induction fuel; intros zone op err; cbn [waitForOp_loop];
    stops_with ltac:(idtac; match goal with
                            | |- stops_within _ (waitForOp_loop _ _ _ _ _ _) =>
                                apply IHfuel
                            end).
Qed.

Lemma waitForOp_panics_only fuel op zone :
  stops_within panics_only (waitForOp P F fuel op zone).
Proof.
  unfold waitForOp.
  stops_with ltac:(idtac; match goal with
                          | |- stops_within _ (waitForOp_loop _ _ _ _ _ _) =>
                              apply waitForOp_loop_panics_only
                          end).
Qed.

Ltac library_tac :=
  stops_with ltac:(idtac; match goal with
                          | |- stops_within _ (waitForOp _ _ _ _ _) =>
                              apply waitForOp_panics_only
                          end).

Lemma GetPublicIPAddress_panics_only name zone :
  stops_within panics_only (GetPublicIPAddress P F name zone).
Proof. unfold GetPublicIPAddress. library_tac. Qed.

Lemma CreateInstance_panics_only fuel name zone :
  stops_within panics_only (CreateInstance P F fuel name zone).
Proof. unfold CreateInstance, getOrCreateRootDisk, firstNatIP. library_tac. Qed.

Lemma OpenSecureTunnel_panics_only name zone localPort remotePort :
  stops_within panics_only (OpenSecureTunnel P F name zone localPort remotePort).
Proof. unfold OpenSecureTunnel, openSecureTunnel, GetPublicIPAddress. library_tac. Qed.

Lemma GetOrCreateInstance_panics_only fuel :
  stops_within panics_only (GetOrCreateInstance P F fuel).
Proof.
  unfold GetOrCreateInstance.
  stops_with ltac:(idtac; match goal with
                          | |- stops_within _ (GetPublicIPAddress _ _ _ _) =>
                              apply GetPublicIPAddress_panics_only
                          | |- stops_within _ (CreateInstance _ _ _ _ _) =>
                              apply CreateInstance_panics_only
                          end).
Qed.

(** X14: the methods of the Cloud implementation never end the process and
    never wait on a channel.  Resolving an address and launching the tunnel
    either return, with or without an error, or panic.  Creating and
    deleting an instance either return, panic, or are still in the polling
    loop when the bound on its iterations is reached.  Only [main] and the
    construction of the client call [log.Fatalf]. *)
Theorem GCECloud_methods_never_exit fuel name zone localPort remotePort :
  stops_within panics (GetPublicIPAddress P F name zone)
  /\ stops_within panics (OpenSecureTunnel P F name zone localPort remotePort)
  /\ stops_within panics_only (CreateInstance P F fuel name zone)
  /\ stops_within panics_only (DeleteInstance P F fuel name zone).
Proof.
  repeat split.
  - unfold GetPublicIPAddress. stops_with fail.
  - unfold OpenSecureTunnel, openSecureTunnel, GetPublicIPAddress. stops_with fail.
  - apply CreateInstance_panics_only.
  - unfold DeleteInstance. library_tac.
Qed.

(** X16: an instance is reused only when its address is not empty.  When
    the lookup fails, for whatever reason, or finds an instance whose
    address is empty, the orchestrator goes on to create an instance from
    the world the lookup left, and the lookup's error is not kept. *)
Theorem GetOrCreateInstance_creates fuel w i e w1 :
  Instances_Get P (projectId F) (zone F) (instanceName F) w = ((i, e), w1) ->
  e <> None
  \/ (exists ac, first_config i = Some ac /\ AccessConfig.NatIP ac = "") ->
  GetOrCreateInstance P F fuel w
  = prepend [InstancesGet (projectId F) (zone F) (instanceName F)]
            (CreateInstance P F fuel (instanceName F) (zone F) w1).
Proof.
  intros H Hcase. unfold GetOrCreateInstance, GetPublicIPAddress.
  assert (Hr : GetPublicIPAddress P F (instanceName F) (zone F) w
               = mkResult (Ret ("", e)) w1
                   [InstancesGet (projectId F) (zone F) (instanceName F)]).
  { unfold GetPublicIPAddress. rewrite (run_request_bind _ _ _ _ _ _ _ _ H).
    destruct Hcase as [He | (ac & Hac & Hip)].
    - destruct e as [e|]; [reflexivity | congruence].
    - destruct e as [e|]; [reflexivity|].
      unfold first_config in Hac.
      destruct i as [inst|]; [|discriminate].
      cbn [deref]. rewrite run_ret_bind. unfold index.
      destruct (Instance.NetworkInterfaces inst) as [|[ni|] nis]; try discriminate.
      cbn [nth_error]. rewrite run_ret_bind. cbn [deref]. rewrite run_ret_bind.
      destruct (NetworkInterface.AccessConfigs ni) as [|[ac'|] acs]; try discriminate.
      injection Hac as ->. cbn [nth_error]. rewrite run_ret_bind. cbn [deref].
      rewrite run_ret_bind, Hip. reflexivity. }
  fold (GetPublicIPAddress P F (instanceName F) (zone F)).
  rewrite (run_bind _ _ _ _ _ _ _ _ Hr). reflexivity.
Qed.

(** The launcher's last event, when it returns without error, is the run
    of [ssh]. *)
Lemma OpenSecureTunnel_ends_with_run name zone localPort remotePort w proc w1 ev :
  OpenSecureTunnel P F name zone localPort remotePort w
  = mkResult (Ret (proc, None)) w1 ev ->
  exists before args,
    ev = before ++ [Run "ssh" args] /\ filter is_spawn before = [].
Proof.
  unfold OpenSecureTunnel, openSecureTunnel, log_Printf.
  pose proof (GetPublicIPAddress_events P F name zone w) as Hev.
  destruct (GetPublicIPAddress P F name zone w) as [[[ip [e|]]|why] w2 ev2] eqn:H;
    cbn [events] in Hev; subst ev2.
  - rewrite (run_bind _ _ _ _ _ _ _ _ H). discriminate.
  - rewrite (run_bind _ _ _ _ _ _ _ _ H). cbv zeta. rewrite run_emit_bind.
    destruct (exec_Run P "ssh"
                (strings_Split
                   (sshCommand (env_HOME F) (env_USER F) ip "localhost"
                      localPort remotePort) " ") w2) as [[p' runerr] w3] eqn:Hx.
    rewrite (run_request_bind _ _ _ _ _ _ _ _ Hx).
    cbn [prepend outcome final events app]. intros [= _ _ <-].
    eexists [_; _], _. split; reflexivity.
  - rewrite (run_bind_stop _ _ _ _ _ _ _ _ H). discriminate.
Qed.

(** X17: [start] never returns to [main].  Every run ends blocked on the
    receive, in a fatal exit, in a panic, or still in the polling loop when
    the bound on its iterations is reached.  When it ends blocked, the last
    thing it did was to run [ssh]; when it exits, the last thing it did was
    to log one of its two fatal lines. *)
Theorem start_never_returns fuel w :
  let r := start P F fuel w in
  (outcome r = Stop Blocked \/ outcome r = Stop Fatal
   \/ outcome r = Stop nil_dereference \/ outcome r = Stop index_out_of_range
   \/ outcome r = Stop OutOfFuel)
  /\ (forall v, outcome r <> Ret v)
  /\ (outcome r = Stop Blocked ->
      exists before args, events r = before ++ [Run "ssh" args])
  /\ (outcome r = Stop Fatal ->
      exists before,
        events r = before ++ [Log "failed to create VM instance" []]
        \/ events r = before ++ [Log "failed to create SSH tunnel" []]).
Proof.
  intros r. subst r. unfold start, log_Fatalf.
  assert (Hcases : forall why : Abort,
             panics_only why = true ->
             why = nil_dereference \/ why = index_out_of_range \/ why = OutOfFuel).
  { intros []; cbn; intros E; try discriminate E; auto. }
  pose proof (GetOrCreateInstance_panics_only fuel w) as Hg.
  destruct (GetOrCreateInstance P F fuel w) as [[[ip [e|]]|why] w1 ev1] eqn:H1;
    cbn [outcome] in Hg.
  - rewrite (run_bind _ _ _ _ _ _ _ _ H1), run_emit_bind.
    cbn [prepend outcome events stop app].
    split; [right; left; reflexivity|].
    split; [discriminate|]. split; [discriminate|].
    intros _. exists ev1. left. reflexivity.
  - rewrite (run_bind _ _ _ _ _ _ _ _ H1).
    pose proof (OpenSecureTunnel_panics_only (instanceName F) (zone F)
                  (tunnelPort F) (dockerPort F) w1) as Ht.
    destruct (OpenSecureTunnel P F (instanceName F) (zone F) (tunnelPort F)
                (dockerPort F) w1) as [[[proc [e|]]|why] w2 ev2] eqn:H2;
      cbn [outcome] in Ht.
    + rewrite (run_bind _ _ _ _ _ _ _ _ H2), run_emit_bind.
      cbn [prepend outcome events stop app].
      split; [right; left; reflexivity|].
      split; [discriminate|]. split; [discriminate|].
      intros _. exists (ev1 ++ ev2). right. now rewrite app_assoc.
    + rewrite (run_bind _ _ _ _ _ _ _ _ H2).
      cbn [prepend outcome events stop app].
      split; [left; reflexivity|].
      split; [discriminate|]. split; [|discriminate]. intros _.
      destruct (OpenSecureTunnel_ends_with_run _ _ _ _ _ _ _ _ H2)
        as (before & args & -> & _).
      exists (ev1 ++ before), args. now rewrite app_nil_r, app_assoc.
    + rewrite (run_bind_stop _ _ _ _ _ _ _ _ H2).
      cbn [prepend outcome events].
      split; [|split; [discriminate|split]].
      * destruct (Hcases why Ht) as [-> | [-> | ->]]; auto.
      * intros [= ->]. discriminate Ht.
      * intros [= ->]. discriminate Ht.
  - rewrite (run_bind_stop _ _ _ _ _ _ _ _ H1). cbn [outcome events].
    split; [|split; [discriminate|split]].
    + destruct (Hcases why Hg) as [-> | [-> | ->]]; auto.
    + intros [= ->]. discriminate Hg.
    + intros [= ->]. discriminate Hg.
Qed.

End OrchestratorMore.

Section MainMore.

Context {W : Type}.
Variable P : Provider W.
Variable F : Flags.

(** X18: whatever the arguments and the provider's answers, one run of
    [main] sends at most one disk insert, at most one instance insert and
    at most one instance delete, and runs at most one [ssh]. *)
Theorem main_at_most_once fuel args w :
  let r := main P F fuel args w in
  count is_disk_insert (events r) <= 1
  /\ count is_instance_insert (events r) <= 1
  /\ count is_instance_delete (events r) <= 1
  /\ count is_spawn (events r) <= 1.
Proof.
  intros r. subst r. repeat split.
  - revert w. change (atmost 1 is_disk_insert (main P F fuel args)).
    unfold main. destruct args as [|verb rest]; atmost_tac.
  - revert w. change (atmost 1 is_instance_insert (main P F fuel args)).
    unfold main. destruct args as [|verb rest]; atmost_tac.
  - revert w. change (atmost 1 is_instance_delete (main P F fuel args)).
    unfold main. destruct args as [|verb rest]; atmost_tac.
  - revert w. change (atmost 1 is_spawn (main P F fuel args)).
    unfold main. destruct args as [|verb rest]; atmost_tac.
Qed.

(** X19: the two verbs do not mix.  A run of [main] that sends an instance
    delete creates nothing and runs no command; a run that creates a disk
    or an instance, or runs [ssh], deletes nothing. *)
Theorem main_verbs_exclusive fuel args w :
  let r := main P F fuel args w in
  count is_instance_delete (events r) = 0
  \/ (count is_create (events r) = 0 /\ count is_spawn (events r) = 0).
Proof.
  intros r. subst r. unfold main. destruct args as [|verb rest].
  - left. reflexivity.
  - destruct (verb =? "start").
    + left. apply Nat.le_0_r. revert w.
      change (atmost 0 is_instance_delete
                (NewCloudGce P F ;; start P F fuel)).
      apply atmost_only. never_tac.
    + right. split; apply Nat.le_0_r; revert w.
      * change (atmost 0 is_create
                  (NewCloudGce P F ;;
                   (if verb =? "stop" then stop_instance P F fuel else ret tt))).
        apply atmost_only. never_tac.
      * change (atmost 0 is_spawn
                  (NewCloudGce P F ;;
                   (if verb =? "stop" then stop_instance P F fuel else ret tt))).
        apply atmost_only. never_tac.
Qed.

(** What the construction of the client does, by the result of
    [gcloudTransport] and the answer of [compute.New]. *)
Lemma NewGCECloud_result w host w1 :
  credentials P w = (host, w1) ->
  NewGCECloud P F w
  = match Credentials.gcloudTransport host (gcloudCredentialsPath F) with
    | (Stop why, steps) => mkResult (Stop why) w1 (map Credential steps)
    | (Ret (_, Some e), steps) =>
        mkResult (Stop Fatal) w1
          (map Credential steps
           ++ [Log "unable to create gcloud transport: %v" [VError (Some e)]])
    | (Ret (_, None), steps) =>
        match compute_New P w1 with
        | (Some e, w2) =>
            mkResult (Stop Fatal) w2
              (map Credential steps
               ++ [NewService; Log "Error creating service: %v" [VError (Some e)]])
        | (None, w2) => mkResult (Ret tt) w2 (map Credential steps ++ [NewService])
        end
    end.
Proof.
  intros Hc. unfold NewGCECloud, log_Fatalf.
  assert (Hcall : gcloudTransport_call P F w
                  = let (result, steps) :=
                      Credentials.gcloudTransport host (gcloudCredentialsPath F) in
                    mkResult result w1 (map Credential steps)).
  { unfold gcloudTransport_call. now rewrite Hc. }
  destruct (Credentials.gcloudTransport host (gcloudCredentialsPath F))
    as [[[tr [e|]]|why] steps].
  - rewrite (run_bind _ _ _ _ _ _ _ _ Hcall), run_emit_bind. reflexivity.
  - rewrite (run_bind _ _ _ _ _ _ _ _ Hcall).
    destruct (compute_New P w1) as [[e|] w2] eqn:Hn;
      rewrite (run_request_bind _ _ _ _ _ _ _ _ Hn).
    + rewrite run_emit_bind. reflexivity.
    + reflexivity.
  - now rewrite (run_bind_stop _ _ _ _ _ _ _ _ Hcall).
Qed.

Lemma credential_steps_no_request steps :
  filter is_api_request (map Credential steps) = []
  /\ filter is_spawn (map Credential steps) = []
  /\ filter is_log (map Credential steps) = [].
Proof. induction steps as [|step steps IH]; cbn; [repeat split | exact IH]. Qed.


(** X21: a verb other than [start] and [stop] is not reported.  Once the
    client is built, [main] returns normally without any request to the
    compute API and without running a command. *)
Theorem main_unknown_verb fuel verb rest w host w1 tr w2 :
  (verb =? "start") = false -> (verb =? "stop") = false ->
  credentials P w = (host, w1) ->
  fst (Credentials.gcloudTransport host (gcloudCredentialsPath F)) = Ret (tr, None) ->
  compute_New P w1 = (None, w2) ->
  let r := main P F fuel (verb :: rest) w in
  r = mkResult (Ret tt) w2
        (map Credential
             (snd (Credentials.gcloudTransport host (gcloudCredentialsPath F)))
         ++ [NewService])
  /\ filter is_api_request (events r) = []
  /\ filter is_spawn (events r) = [].
Proof.
  intros Hs Ht Hc Hg Hn r. subst r. unfold main, NewCloudGce. rewrite Hs, Ht.
  pose proof (NewGCECloud_result w host w1 Hc) as Hr.
  destruct (Credentials.gcloudTransport host (gcloudCredentialsPath F))
    as [result steps]. cbn [fst snd] in *. subst result. rewrite Hn in Hr.
  rewrite (run_bind _ _ _ _ _ _ _ _ Hr).
  destruct (credential_steps_no_request steps) as (Ha & Hsp & _).
  unfold prepend; cbn [outcome final events ret Monad_M M_ret].
  rewrite app_nil_r, !filter_app, Ha, Hsp. repeat split.
Qed.

(** The same for the whole program: a run of [main] that ends otherwise
    than by running out of fuel is the same run, events and final world
    included, with any larger fuel. *)
Lemma main_more_fuel n m args w :
  n <= m ->
  outcome (main P F n args w) <> Stop OutOfFuel ->
  main P F m args w = main P F n args w.
Proof.
  intros Hnm. revert w. change (settles (main P F n args) (main P F m args)).
  unfold main, start, stop_instance, GetOrCreateInstance, CreateInstance,
    DeleteInstance, getOrCreateRootDisk.
  settles_tac.
Qed.

(** X23: the disk size flag has no effect: with any other size every run
    of [main] is the same. *)
Theorem main_ignores_diskSizeGb size fuel args w :
  main P (with_diskSizeGb F size) fuel args w = main P F fuel args w.
Proof. reflexivity. Qed.

End MainMore.

(** ** The credentials of the API client *)

Module CredentialsFacts.

Import Credentials.

(** X24: a credentials file that was opened is closed, once and as the
    last step, on every way out of [gcloudTransport]: after a decoding
    error, after the panic on an empty cache and after the refresh.  When
    the file cannot be opened nothing else is done and the error of
    [os.Open] is returned. *)
Theorem gcloudTransport_closes_file (H : Host) (path : string) :
  match os_Open H path with
  | Some e => gcloudTransport H path = (Ret (None, Some e), [Open path])
  | None =>
      exists middle,
        snd (gcloudTransport H path) = Open path :: middle ++ [Close]
        /\ filter is_close middle = []
  end.
Proof.
  unfold gcloudTransport. destruct (os_Open H path) as [e|]; [reflexivity|].
  unfold opened. destruct (json_Decode H path) as [cache [e|]].
  - exists [Decode]. split; reflexivity.
  - destruct (nth_error (Data cache) 0) as [gcloud|].
    + eexists [_; _; _]. split; reflexivity.
    + eexists [_; _]. split; reflexivity.
Qed.

(** X25: a cache that decodes without error is written to the log as it
    is, secrets included, before anything is done with it; and when its
    list of entries is empty the function then panics on the index, without
    having tried a refresh. *)
Theorem gcloudTransport_logs_cache (H : Host) (path : string) cache :
  os_Open H path = None ->
  json_Decode H path = (cache, None) ->
  (exists rest, snd (gcloudTransport H path)
                = [Open path; Decode; LogPrint cache] ++ rest)
  /\ (Data cache = [] ->
      fst (gcloudTransport H path) = Stop index_out_of_range
      /\ filter is_refresh (snd (gcloudTransport H path)) = []).
Proof.
  intros Ho Hd. unfold gcloudTransport, opened. rewrite Ho, Hd.
  destruct (Data cache) as [|gcloud rest]; cbn [nth_error].
  - split; [eexists; reflexivity|]. intros _. split; reflexivity.
  - split; [eexists; reflexivity|]. discriminate.
Qed.

(** X26: the transport is built from the first entry of the cache and from
    nothing else: the entries after the first have no effect.  It carries
    that entry's client id, client secret, scope and tokens, the redirect
    URL [oob] and the two fixed endpoints; it is refreshed once and returned
    together with the error of that refresh, nil or not. *)
Theorem gcloudTransport_first_entry (H : Host) (path : string) gcloud rest :
  os_Open H path = None ->
  json_Decode H path = ({| Data := gcloud :: rest |}, None) ->
  let t := transport_of gcloud in
  fst (gcloudTransport H path) = Ret (Some t, oauth_Refresh H t)
  /\ filter is_refresh (snd (gcloudTransport H path)) = [Refresh t]
  /\ ClientId (transport_Config t) = Client_Id (entry_Credential gcloud)
  /\ ClientSecret (transport_Config t) = Client_Secret (entry_Credential gcloud)
  /\ config_Scope (transport_Config t) = Scope (entry_Key gcloud)
  /\ AccessToken (transport_Token t) = Access_Token (entry_Credential gcloud)
  /\ RefreshToken (transport_Token t) = Refresh_Token (entry_Credential gcloud)
  /\ Expiry (transport_Token t) = Token_Expiry (entry_Credential gcloud).
Proof.
  intros Ho Hd t. unfold gcloudTransport, opened. rewrite Ho, Hd.
  cbn [Data nth_error]. repeat split.
Qed.

End CredentialsFacts.

(** ** Runs on the scripted world *)

(** An operation that is DONE at the first fetch, with no fuel at all. *)
Lemma waitForOp_done_at_first_fetch_witness :
  waitForOp Script.provider Script.flags 0 (fst (Script.op_in "PENDING")) "us-central1-a"
    (Script.with_operations [Script.op_in "DONE"])
  = mkResult (Ret None) Script.empty
      [ZoneOperationsGet "p" "us-central1-a" "op"; Print (String "010" "")].
Proof.
  exact (waitForOp_done_at_first_fetch Script.provider Script.flags 0 _ "us-central1-a"
           (Script.with_operations [Script.op_in "DONE"]) _ _ _ eq_refl eq_refl).
Defined.

(** Seven iterations against operations that stay PENDING. *)
Lemma waitForOp_unbounded_witness :
  let r := waitForOp Pending.provider Script.flags 7 (Some Pending.operation)
             "us-central1-a" tt in
  outcome r = Stop OutOfFuel
  /\ count is_sleep (events r) = 7
  /\ count is_fetch (events r) = 8.
Proof.
  apply (waitForOp_unbounded Pending.provider Script.flags "us-central1-a").
  intros name w. exists Pending.operation, w. split; [reflexivity | left; reflexivity].
Defined.

(** PENDING at the first fetch, FAILED at the second. *)
Lemma waitForOp_unrecognized_on_refetch_witness :
  let r := waitForOp Script.provider Script.flags 1 (fst (Script.op_in "PENDING"))
             "us-central1-a"
             (Script.with_operations [Script.op_in "PENDING"; Script.op_in "FAILED"]) in
  outcome r
  = Ret (Some (errors_New "Bad operation: %s"
                 {| Operation.Name := "op"; Operation.Status := "FAILED";
                    Operation.TargetLink := "link/docker-root" |}))
  /\ final r = Script.empty
  /\ count is_fetch (events r) = 2
  /\ count is_sleep (events r) = 1.
Proof.
  exact (waitForOp_unrecognized_on_refetch Script.provider Script.flags 0 _
           "us-central1-a"
           (Script.with_operations [Script.op_in "PENDING"; Script.op_in "FAILED"])
           _ _ _ _ _ _ eq_refl eq_refl eq_refl eq_refl).
Defined.

(** An instance with one interface and one access configuration. *)
Lemma GetPublicIPAddress_returns_iff_witness :
  outcome (GetPublicIPAddress Script.provider Script.flags "docker-instance"
             "us-central1-a"
             (Script.mkWorld [Script.instance_at "1.2.3.4"] [] [] [] [] [] [] []))
  = Ret ("1.2.3.4", None).
Proof.
  exact (proj1 (GetPublicIPAddress_returns_iff Script.provider Script.flags
                  "docker-instance" "us-central1-a"
                  (Script.mkWorld [Script.instance_at "1.2.3.4"] [] [] [] [] [] [] [])
                  _ _ eq_refl)).
Defined.

(** The arguments of [ssh] for the default ports. *)
Lemma sshCommand_arguments_witness :
  strings_Split (sshCommand "/home/u" "u" "1.2.3.4" "localhost" 8001 8000) " "
  = [ "-o"; "LogLevel=quiet"; "-o"; "UserKnownHostsFile=/dev/null";
      "-o"; "CheckHostIP=no"; "-o"; "StrictHostKeyChecking=no";
      "-i"; "/home/u/.ssh/google_compute_engine";
      "-A"; "-p"; "22"; "u@1.2.3.4"; "-f"; "-N"; "-L"; "8001:localhost:8000" ].
Proof.
  exact (sshCommand_arguments "/home/u" "u" "1.2.3.4" "localhost" 8001 8000
           eq_refl eq_refl eq_refl eq_refl).
Defined.

(** A creation on a disk that is found. *)
Lemma CreateInstance_boots_from_root_disk_witness :
  let w := Script.mkWorld [] [Script.op_in "PENDING"] []
             [(Some {| Disk.Name := "docker-root";
                       Disk.SelfLink := "link/docker-root" |}, None)]
             [] [Script.op_in "DONE"] [] [] in
  exists descriptor,
    In (InstancesInsert "p" "us-central1-a" descriptor)
       (events (CreateInstance Script.provider Script.flags 1
                  "docker-instance" "us-central1-a" w))
    /\ Instance.Disks descriptor
       = [Some {| AttachedDisk.Boot := true; AttachedDisk.Type_ := "PERSISTENT";
                  AttachedDisk.Mode := "READ_WRITE";
                  AttachedDisk.Source := "link/docker-root" |}].
Proof.
  intros w.
  destruct (CreateInstance_boots_from_root_disk Script.provider Script.flags 1
              "docker-instance" "us-central1-a" w _ _ _ eq_refl)
    as (descriptor & rest & Hev & _ & _ & Hd & _).
  exists descriptor. split; [|exact Hd].
  rewrite Hev. apply in_or_app. right. right. left. reflexivity.
Defined.

(** A creation that succeeds ends with the long sleep. *)
Lemma CreateInstance_readiness_sleep_witness :
  let w := Script.mkWorld [] [Script.op_in "PENDING"] []
             [(Some {| Disk.Name := "docker-root";
                       Disk.SelfLink := "link/docker-root" |}, None)]
             [] [Script.op_in "DONE"] [] [] in
  exists before,
    events (CreateInstance Script.provider Script.flags 1
              "docker-instance" "us-central1-a" w)
    = before ++ [Sleep (60 * Second); Log "instance started: %q" [VString ""]]
    /\ forallb short_sleep before = true.
Proof.
  intros w.
  exact (CreateInstance_readiness_sleep Script.provider Script.flags 1
           "docker-instance" "us-central1-a" w "" None eq_refl).
Defined.

(** A deletion whose operation fails. *)
Lemma DeleteInstance_logs_deleted_on_error_witness :
  let r := DeleteInstance Script.provider Script.flags 1
             "docker-instance" "us-central1-a"
             (Script.mkWorld [] [] [Script.op_in "PENDING"] [] []
                [Script.op_in "PENDING"; Script.op_in "FAILED"] [] []) in
  (exists o, outcome r = Ret (Some (errors_New "Bad operation: %s" o)))
  /\ last (events r) Usage = Log "instance deleted" [].
Proof.
  intros r. subst r.
  rewrite (DeleteInstance_logs_deleted_on_error Script.provider Script.flags 1
             "docker-instance" "us-central1-a"
             (Script.mkWorld [] [] [Script.op_in "PENDING"] [] []
                [Script.op_in "PENDING"; Script.op_in "FAILED"] [] [])
             _ _ _ _ _ eq_refl eq_refl).
  split; [eexists; reflexivity | reflexivity].
Defined.

(** A lookup that fails: the orchestrator goes on to create. *)
Lemma GetOrCreateInstance_creates_witness :
  let w := Script.mkWorld [(None, Some (external "rate limit exceeded"))]
             [] [] [] [] [] [] [] in
  GetOrCreateInstance Script.provider Script.flags 1 w
  = prepend [InstancesGet "p" "us-central1-a" "docker-instance"]
      (CreateInstance Script.provider Script.flags 1 "docker-instance" "us-central1-a"
         Script.empty).
Proof.
  intros w.
  apply (GetOrCreateInstance_creates Script.provider Script.flags 1 w _ _ _ eq_refl).
  left. discriminate.
Defined.

(** A start that blocks. *)
Lemma start_never_returns_witness :
  let r := start Script.provider Script.flags 5
             (Script.mkWorld [Script.instance_at "1.2.3.4"; Script.instance_at "1.2.3.4"]
                [] [] [] [] [] [(Some {| Pid := 7 |}, None)] []) in
  outcome r = Stop Blocked
  /\ exists before args, events r = before ++ [Run "ssh" args].
Proof.
  intros r. subst r. split; [reflexivity|].
  destruct (start_never_returns Script.provider Script.flags 5
              (Script.mkWorld
                 [Script.instance_at "1.2.3.4"; Script.instance_at "1.2.3.4"]
                 [] [] [] [] [] [(Some {| Pid := 7 |}, None)] []))
    as (_ & _ & Hb & _).
  exact (Hb eq_refl).
Defined.


(** A verb that is neither [start] nor [stop]. *)
Lemma main_unknown_verb_witness :
  let r := main Script.provider Script.flags 5 ["restart"] Script.empty in
  outcome r = Ret tt /\ filter is_api_request (events r) = [].
Proof.
  intros r. subst r.
  destruct (main_unknown_verb Script.provider Script.flags 5 "restart" []
              Script.empty _ _ _ _ eq_refl eq_refl eq_refl eq_refl eq_refl)
    as (Hr & Ha & _).
  split; [now rewrite Hr | exact Ha].
Defined.

(** The credentials on a host with two entries and a refused refresh. *)
Lemma gcloudTransport_first_entry_witness :
  fst (Credentials.gcloudTransport
         (Credentials.host [Credentials.first_entry; Credentials.second_entry])
         "/home/u/.config/gcloud/credentials")
  = Ret (Some (Credentials.transport_of Credentials.first_entry),
         Some (external "invalid_grant")).
Proof.
  exact (proj1 (CredentialsFacts.gcloudTransport_first_entry
                  (Credentials.host [Credentials.first_entry; Credentials.second_entry])
                  "/home/u/.config/gcloud/credentials" _ _ eq_refl eq_refl)).
Defined.

(** The credentials on a host whose cache has no entry. *)
Lemma gcloudTransport_logs_cache_witness :
  fst (Credentials.gcloudTransport (Credentials.host [])
         "/home/u/.config/gcloud/credentials")
  = Stop index_out_of_range.
Proof.
  exact (proj1 (proj2 (CredentialsFacts.gcloudTransport_logs_cache
                         (Credentials.host []) "/home/u/.config/gcloud/credentials"
                         _ eq_refl eq_refl) eq_refl)).
Defined.
